(** * PulseOverlay: connection lifecycle, shared state and rolling-window graph

    A shallow embedding of the browser extension's JavaScript:
    - [shared/constants.js]   the default settings,
    - [shared/state.js]       [PulseState.getState] over [chrome.storage.local],
    - [overlay/graph.js]      [PulseGraph] (rolling-window buffer and axis bounds),
    - the overlay component   [PulseOverlay] (visibility and value display),
    - [background.js]         the connection manager, as an event-driven
                              transition system with explicit suspension
                              points at every [await].

    Numbers that the code handles are modelled as [Z] (beats per minute and
    millisecond timestamps are integers on the wire). *)

From Stdlib Require Import ZArith String List Bool Lia DecimalString Sorted.
From stdpp Require Import gmap strings list.

#[local] Set Warnings "-register-all".

Open Scope string_scope.
Open Scope list_scope.
Open Scope Z_scope.

(** ** JavaScript values as they come out of [JSON.parse] or storage *)

Inductive json :=
| JNull
| JBool (b : bool)
| JNum (n : Z)
| JStr (s : string)
| JArr (items : list json)
| JObj (fields : list (string * json)).

(** A property read or an optional argument is [None] when it is
    [undefined]. *)
Abbreviation jsval := (option json).

(** JavaScript truthiness. *)
Definition truthy (v : jsval) : bool :=
  match v with
  | None => false
  | Some JNull => false
  | Some (JBool b) => b
  | Some (JNum n) => negb (n =? 0)
  | Some (JStr s) => negb (String.eqb s "")
  | Some (JArr _) => true
  | Some (JObj _) => true
  end.

(** [a || b] with a defined right operand. *)
Definition js_or (a : jsval) (b : json) : json :=
  match a with
  | Some v => if truthy a then v else b
  | None => b
  end.

(** [v === "literal"]. *)
Definition is_str (v : json) (lit : string) : bool :=
  match v with
  | JStr s => String.eqb s lit
  | _ => false
  end.

(** [v === true] and [v === false] on a possibly undefined value. *)
Definition is_true (v : jsval) : bool :=
  match v with Some (JBool true) => true | _ => false end.

Definition is_false (v : jsval) : bool :=
  match v with Some (JBool false) => true | _ => false end.

Fixpoint assoc (k : string) (fields : list (string * json)) : jsval :=
  match fields with
  | [] => None
  | (k', v) :: rest => if String.eqb k k' then Some v else assoc k rest
  end.

(** Outcome of a piece of code that may throw. *)
Inductive completion (A : Type) :=
| Normal (a : A)
| Throw (err : string).
Arguments Normal {A} a.
Arguments Throw {A} err.

Definition bind {A B : Type} (c : completion A) (k : A -> completion B)
  : completion B :=
  match c with
  | Normal a => k a
  | Throw e => Throw e
  end.

Notation "x <- c ;; k" := (bind c (fun x => k))
  (at level 100, c at next level, right associativity).

(** [data.key] for one of the keys the manager reads ([status], [device],
    [bpm], [timestamp]): a [TypeError] on [null], the field of an object,
    [undefined] on every other value. *)
Definition get_prop (data : json) (key : string) : completion jsval :=
  match data with
  | JNull => Throw "TypeError"
  | JObj fields => Normal (assoc key fields)
  | _ => Normal None
  end.

Definition num_to_string (n : Z) : string :=
  NilZero.string_of_int (Z.to_int n).

(** ** shared/constants.js *)

Record Settings := {
  enabled : bool;
  serverUrl : string;
  displayMode : string;
  position : string;
  size : string;
  graphDuration : Z;
  siteOverrides : gmap string json
}.

Definition PULSE_DEFAULTS : Settings := {|
  enabled := true;
  serverUrl := "ws://localhost:8765";
  displayMode := "standard";
  position := "bottom-right";
  size := "medium";
  graphDuration := 60;
  siteOverrides := ∅
|}.

(** ** shared/state.js: the reader of the shared state store

    [chrome.storage.local] is a map from key to stored value;
    [chrome.storage.local.set(items)] overwrites the given keys. *)

Module PulseState.

Record StateRecord := {
  connectionState : json;
  connectedDevice : json;
  currentBpm : json
}.

Definition getState (local : gmap string json) : StateRecord := {|
  connectionState := js_or (local !! "connectionState") (JStr "disconnected");
  connectedDevice := js_or (local !! "connectedDevice") JNull;
  currentBpm := js_or (local !! "currentBpm") JNull
|}.

End PulseState.

(** ** overlay/graph.js *)

Module PulseGraph.

Record Point := { bpm : Z; timestamp : Z }.

Record t := {
  duration : Z;            (* seconds *)
  points : list Point;
  minBpm : Z;
  maxBpm : Z
}.

(** [new PulseGraph(canvas, duration)]; the canvas is not modelled. *)
Definition create (duration : Z) : t :=
  {| duration := duration; points := []; minBpm := 40; maxBpm := 200 |}.

(** [timestamp || now]: an absent or zero timestamp is replaced. *)
Definition or_now (timestamp : option Z) (now : Z) : Z :=
  match timestamp with
  | Some ts => if ts =? 0 then now else ts
  | None => now
  end.

(** [Math.max(40, Math.min(220, b))]. *)
Definition clamp (b : Z) : Z := Z.max 40 (Z.min 220 b).

(** [Math.min(...l)] and [Math.max(...l)] of the list [x :: xs]. *)
Definition Math_min (x : Z) (xs : list Z) : Z := fold_left Z.min xs x.
Definition Math_max (x : Z) (xs : list Z) : Z := fold_left Z.max xs x.

(** [addPoint(bpm, timestamp)] when [Date.now()] reads [now]. *)
Definition addPoint (g : t) (b : Z) (ts : option Z) (now : Z) : t :=
  let pushed := (points g ++ [{| bpm := b; timestamp := or_now ts now |}])%list in
  let cutoff := now - duration g * 1000 in
  let kept := List.filter (fun p => cutoff <? timestamp p) pushed in
  match List.map (fun p => clamp (bpm p)) kept with
  | [] =>
      {| duration := duration g; points := kept;
         minBpm := minBpm g; maxBpm := maxBpm g |}
  | x :: xs =>
      {| duration := duration g; points := kept;
         minBpm := Z.max 40 (Math_min x xs - 10);
         maxBpm := Z.min 220 (Math_max x xs + 10) |}
  end.

Definition clear (g : t) : t :=
  {| duration := duration g; points := [];
     minBpm := minBpm g; maxBpm := maxBpm g |}.

(** One insert: value, timestamp argument, and the clock at the call. *)
Record Insert := { value : Z; stamp : option Z; at_time : Z }.

Definition feed (g : t) (ins : list Insert) : t :=
  fold_left (fun g i => addPoint g (value i) (stamp i) (at_time i)) ins g.

End PulseGraph.

(** ** The overlay component (render surface) *)

Module PulseOverlay.

(** The part of the shadow DOM that [updateDisplay] writes. *)
Record Dom := {
  statusClassName : string;     (* statusElement.className *)
  bpmValueText : string;        (* .bpm-value textContent *)
  heartBeating : bool;          (* heartElement has class 'beating' *)
  overlayDisconnected : bool    (* overlay has class 'disconnected' *)
}.

Record t := {
  hostname : string;            (* window.location.hostname *)
  container : option Dom;       (* null until createOverlay *)
  graph : option PulseGraph.t;
  settings : Settings;
  currentBpm : option Z;        (* null or the last sample value *)
  connectionState : string
}.

Definition create (host : string) (st : Settings) : t := {|
  hostname := host; container := None; graph := None; settings := st;
  currentBpm := None; connectionState := "disconnected"
|}.

Definition shouldShow (o : t) : bool :=
  let override := siteOverrides (settings o) !! hostname o in
  if is_true override then true
  else if is_false override then false
  else enabled (settings o).

Definition createOverlay (o : t) : t := {|
  hostname := hostname o;
  container := Some {| statusClassName := "status-indicator status-disconnected";
                       bpmValueText := "--";
                       heartBeating := false;
                       overlayDisconnected := false |};
  graph := if String.eqb (displayMode (settings o)) "graph"
           then Some (PulseGraph.create (graphDuration (settings o)))
           else None;
  settings := settings o;
  currentBpm := currentBpm o;
  connectionState := connectionState o
|}.

Definition set_container (c : option Dom) (o : t) : t := {|
  hostname := hostname o; container := c; graph := graph o;
  settings := settings o; currentBpm := currentBpm o;
  connectionState := connectionState o
|}.

Definition updateDisplay (o : t) : t :=
  match container o with
  | None => o
  | Some _ =>
      let cls := String.append "status-indicator status-" (connectionState o) in
      match currentBpm o with
      | Some b =>
          if String.eqb (connectionState o) "connected"
          then set_container (Some {| statusClassName := cls;
                                      bpmValueText := num_to_string b;
                                      heartBeating := true;
                                      overlayDisconnected := false |}) o
          else set_container (Some {| statusClassName := cls;
                                      bpmValueText := "--";
                                      heartBeating := false;
                                      overlayDisconnected := true |}) o
      | None =>
          set_container (Some {| statusClassName := cls;
                                 bpmValueText := "--";
                                 heartBeating := false;
                                 overlayDisconnected := true |}) o
      end
  end.

Definition set_graph (g : option PulseGraph.t) (o : t) : t := {|
  hostname := hostname o; container := container o; graph := g;
  settings := settings o; currentBpm := currentBpm o;
  connectionState := connectionState o
|}.

Definition set_currentBpm (b : option Z) (o : t) : t := {|
  hostname := hostname o; container := container o; graph := graph o;
  settings := settings o; currentBpm := b;
  connectionState := connectionState o
|}.

Definition set_connectionState (state : string) (o : t) : t := {|
  hostname := hostname o; container := container o; graph := graph o;
  settings := settings o; currentBpm := currentBpm o;
  connectionState := state
|}.

(** The [onStateChange] listener installed by [setupListeners]. *)
Definition onStateChange (state : string) (o : t) : t :=
  updateDisplay (set_connectionState state o).

(** The [onHeartRate] listener installed by [setupListeners]; [now] is the
    clock read inside [graph.addPoint]. *)
Definition onHeartRate (b : Z) (ts : option Z) (now : Z) (o : t) : t :=
  let o1 := updateDisplay (set_currentBpm (Some b) o) in
  match graph o1 with
  | Some g => set_graph (Some (PulseGraph.addPoint g b ts now)) o1
  | None => o1
  end.

(** The tail of [init] and of [handleSettingsChange] once
    [PulseState.getState()] has returned [state] and [bpm] ([None] for
    [null]): the snapshot is copied, the graph seeded, the display
    refreshed. *)
Definition seed (state : string) (bpm : option Z) (now : Z) (o : t) : t :=
  let o1 := set_connectionState state o in
  match bpm with
  | Some b =>
      let o2 := set_currentBpm (Some b) o1 in
      match graph o2 with
      | Some g =>
          updateDisplay (set_graph (Some (PulseGraph.addPoint g b (Some now) now)) o2)
      | None => updateDisplay o2
      end
  | None => updateDisplay o1
  end.

(** The events a mounted surface reacts to. *)
Inductive event :=
| Seed (state : string) (bpm : option Z) (now : Z)
| StateChange (state : string)
| HeartRate (b : Z) (ts : option Z) (now : Z).

Definition handle (o : t) (e : event) : t :=
  match e with
  | Seed st bpm now => seed st bpm now o
  | StateChange st => onStateChange st o
  | HeartRate b ts now => onHeartRate b ts now o
  end.

Definition displayed (o : t) : option string :=
  match container o with
  | Some d => Some (bpmValueText d)
  | None => None
  end.

(** What every handler leaves behind: a mounted surface whose value text
    is the placeholder unless the phase is 'connected'. *)
Definition consistent (o : t) : Prop :=
  container o <> None /\
  (connectionState o <> "connected" -> displayed o = Some "--").

End PulseOverlay.

(** ** background.js: the connection manager

    The service worker is single-threaded and event-driven.  Every handler
    runs without interruption up to its next [await]; there it suspends and
    any other handler may run before it resumes.  The model keeps the
    module-level variables, the WebSocket objects created so far, the two
    storage areas, the wall clock, the suspended continuations and the trace
    of calls made to the host (console, timers, sockets, broadcast).

    A call to [chrome.storage.local.set] takes effect when it is issued;
    [broadcast(m)] is recorded when it is called.  Suspension points that
    separate no access to the module variables are merged. *)

Module Background.

Inductive ReadyState := CONNECTING | OPEN | CLOSING | CLOSED.

Definition RECONNECT_MAX_DELAY : Z := 30000.
Definition RECONNECT_TIMEOUT : Z := 60000.

(** The module-level [let] variables.  [ws] names a socket by its index
    in [sockets]; [reconnectTimer] holds the delay of the pending timer
    (the only live timer is the one this variable refers to). *)
Record Vars := mkVars {
  ws : option nat;
  isConnecting : bool;
  connectionState : json;
  currentBpm : json;
  reconnectDelay : Z;
  reconnectTimer : option Z;
  reconnectStartTime : option Z;
  autoReconnectEnabled : bool
}.

Definition initial_vars : Vars := {|
  ws := None;
  isConnecting := false;
  connectionState := JStr "disconnected";
  currentBpm := JNull;
  reconnectDelay := 1000;
  reconnectTimer := None;
  reconnectStartTime := None;
  autoReconnectEnabled := true
|}.

(** Payloads handed to [broadcast]. *)
Inductive message :=
| MsgStatus (status device : json)
| MsgHr (bpm : json) (timestamp : jsval)
| MsgSettingsChanged.

(** Which call site invoked [connect]; recorded in the trace only. *)
Inductive origin :=
| FromStartup | FromInstalled | FromTimer | FromAlarm | FromReconnect
| FromSettings.

(** Calls made to the host, in order.  [NewWebSocket] records the
    constructor call whether or not it throws.  [ConnectProceeds] is not a
    host call: it marks a [connect] that got past its guard and remembers
    its call site; nothing in the manager reads it. *)
Inductive effect :=
| Broadcast (m : message)
| ConsoleLog (text : string)
| ConsoleWarn (text : string)
| NewWebSocket (url : string)
| SetTimeout (delay : Z)
| ClearTimeout
| SendResponse (state bpm : json)
| ConnectProceeds (o : origin).

(** Suspended continuations, named after the [await] they wait at. *)
Inductive task :=
| ConnectAwaitShould                    (* connect: await shouldBeConnected() *)
| ConnectAwaitSettings                  (* connect: await getSettings() *)
| ConnectAwaitConnecting (url : string) (* connect: await setConnectionState('connecting') *)
| ConnectAwaitDisconnected              (* connect, catch: await setConnectionState('disconnected') *)
| AwaitBroadcast (m : message)          (* after storage.local.set: the broadcast *)
| TimerAwaitShould                      (* timer callback: await shouldBeConnected() *)
| SettingsAwaitShould                   (* handleSettingsChange: await shouldBeConnected() *)
| InstalledAwaitStorage.                (* onInstalled: await chrome.storage.sync.* *)

Record State := mkState {
  vars : Vars;
  sockets : list ReadyState;
  local : gmap string json;         (* chrome.storage.local *)
  sync : Settings;                  (* chrome.storage.sync, read with defaults *)
  clock : Z;                        (* Date.now() *)
  tasks : list task;
  out : list effect
}.

Definition with_vars (f : Vars -> Vars) (s : State) : State :=
  mkState (f (vars s)) (sockets s) (local s) (sync s) (clock s) (tasks s) (out s).

Definition set_ws (x : option nat) : State -> State :=
  with_vars (fun v => mkVars x (isConnecting v) (connectionState v) (currentBpm v)
    (reconnectDelay v) (reconnectTimer v) (reconnectStartTime v) (autoReconnectEnabled v)).
Definition set_isConnecting (x : bool) : State -> State :=
  with_vars (fun v => mkVars (ws v) x (connectionState v) (currentBpm v)
    (reconnectDelay v) (reconnectTimer v) (reconnectStartTime v) (autoReconnectEnabled v)).
Definition set_connectionState (x : json) : State -> State :=
  with_vars (fun v => mkVars (ws v) (isConnecting v) x (currentBpm v)
    (reconnectDelay v) (reconnectTimer v) (reconnectStartTime v) (autoReconnectEnabled v)).
Definition set_currentBpm (x : json) : State -> State :=
  with_vars (fun v => mkVars (ws v) (isConnecting v) (connectionState v) x
    (reconnectDelay v) (reconnectTimer v) (reconnectStartTime v) (autoReconnectEnabled v)).
Definition set_reconnectDelay (x : Z) : State -> State :=
  with_vars (fun v => mkVars (ws v) (isConnecting v) (connectionState v) (currentBpm v)
    x (reconnectTimer v) (reconnectStartTime v) (autoReconnectEnabled v)).
Definition set_reconnectTimer (x : option Z) : State -> State :=
  with_vars (fun v => mkVars (ws v) (isConnecting v) (connectionState v) (currentBpm v)
    (reconnectDelay v) x (reconnectStartTime v) (autoReconnectEnabled v)).
Definition set_reconnectStartTime (x : option Z) : State -> State :=
  with_vars (fun v => mkVars (ws v) (isConnecting v) (connectionState v) (currentBpm v)
    (reconnectDelay v) (reconnectTimer v) x (autoReconnectEnabled v)).
Definition set_autoReconnectEnabled (x : bool) : State -> State :=
  with_vars (fun v => mkVars (ws v) (isConnecting v) (connectionState v) (currentBpm v)
    (reconnectDelay v) (reconnectTimer v) (reconnectStartTime v) x).

Definition set_sockets (x : list ReadyState) (s : State) : State :=
  mkState (vars s) x (local s) (sync s) (clock s) (tasks s) (out s).
Definition set_local (x : gmap string json) (s : State) : State :=
  mkState (vars s) (sockets s) x (sync s) (clock s) (tasks s) (out s).
Definition set_sync (x : Settings) (s : State) : State :=
  mkState (vars s) (sockets s) (local s) x (clock s) (tasks s) (out s).
Definition set_clock (x : Z) (s : State) : State :=
  mkState (vars s) (sockets s) (local s) (sync s) x (tasks s) (out s).
Definition set_tasks (x : list task) (s : State) : State :=
  mkState (vars s) (sockets s) (local s) (sync s) (clock s) x (out s).

Definition emit (e : effect) (s : State) : State :=
  mkState (vars s) (sockets s) (local s) (sync s) (clock s) (tasks s)
          (out s ++ [e])%list.
Definition spawn (t : task) (s : State) : State :=
  set_tasks (tasks s ++ [t])%list s.

(** [ws && (ws.readyState === OPEN || ws.readyState === CONNECTING)] *)
Definition ws_open_or_connecting (s : State) : bool :=
  match ws (vars s) with
  | Some i =>
      match sockets s !! i with
      | Some OPEN | Some CONNECTING => true
      | _ => false
      end
  | None => false
  end.

(** [!ws || ws.readyState !== OPEN] *)
Definition ws_not_open (s : State) : bool :=
  match ws (vars s) with
  | Some i =>
      match sockets s !! i with
      | Some OPEN => false
      | _ => true
      end
  | None => true
  end.

(** [shouldBeConnected], on the settings its [getSettings()] returns. *)
Definition shouldBeConnected (st : Settings) : bool :=
  if enabled st then true
  else existsb (fun v => is_true (Some v))
               (List.map snd (map_to_list (siteOverrides st))).

(** [setConnectionState(state, device)] up to its first [await]: the
    variable and the storage write.  The broadcast that follows is the
    continuation [AwaitBroadcast (MsgStatus state device)]. *)
Definition setConnectionState (state device : json) (s : State) : State :=
  set_local (<["connectionState" := state]>
               (<["connectedDevice" := device]> (local s)))
            (set_connectionState state s).

(** [connect()] up to its first [await]. *)
Definition connect (o : origin) (s : State) : State :=
  if isConnecting (vars s) || ws_open_or_connecting s then s
  else spawn ConnectAwaitShould
         (emit (ConnectProceeds o) (set_isConnecting true s)).

Definition scheduleReconnect (s : State) : State :=
  if negb (autoReconnectEnabled (vars s)) then s
  else
    let start := match reconnectStartTime (vars s) with
                 | Some t0 => t0
                 | None => clock s
                 end in
    let s1 := set_reconnectStartTime (Some start) s in
    if RECONNECT_TIMEOUT <? clock s - start then
      set_reconnectStartTime None
        (set_autoReconnectEnabled false
           (emit (ConsoleLog "PulseOverlay: Auto-reconnect timeout, waiting for manual reconnect") s1))
    else
      let s2 := match reconnectTimer (vars s1) with
                | Some _ => emit ClearTimeout s1
                | None => s1
                end in
      set_reconnectTimer (Some (reconnectDelay (vars s2)))
        (emit (SetTimeout (reconnectDelay (vars s2))) s2).

(** [socket.close()]: only an open or connecting socket starts closing. *)
Definition close_socket (i : nat) (socks : list ReadyState) : list ReadyState :=
  match socks !! i with
  | Some OPEN | Some CONNECTING => <[i := CLOSING]> socks
  | _ => socks
  end.

Definition disconnect (s : State) : State :=
  let s1 := match reconnectTimer (vars s) with
            | Some _ => set_reconnectTimer None (emit ClearTimeout s)
            | None => s
            end in
  let s2 := match ws (vars s1) with
            | Some i => set_ws None (set_sockets (close_socket i (sockets s1)) s1)
            | None => s1
            end in
  set_currentBpm JNull
    (set_connectionState (JStr "disconnected")
       (set_isConnecting false s2)).

(** The body of [ws.onopen]. *)
Definition onopen (s : State) : State :=
  spawn (AwaitBroadcast (MsgStatus (JStr "connected") JNull))
    (setConnectionState (JStr "connected") JNull
       (set_autoReconnectEnabled true
          (set_reconnectStartTime None
             (set_reconnectDelay 1000
                (set_isConnecting false
                   (emit (ConsoleLog "PulseOverlay: Connected to server") s)))))).

(** What [JSON.parse(event.data)] does with the frame: it throws, or it
    returns a value. *)
Inductive payload :=
| NotJson
| Json (data : json).

Definition JSON_parse (p : payload) : completion json :=
  match p with
  | NotJson => Throw "SyntaxError"
  | Json data => Normal data
  end.

(** The [try] block of [ws.onmessage]. *)
Definition onmessage_try (p : payload) (s : State) : completion State :=
  data <- JSON_parse p ;;
  status <- get_prop data "status" ;;
  if truthy status then
    device <- get_prop data "device" ;;
    let st := js_or status JNull in
    let dev := default JNull device in
    Normal (spawn (AwaitBroadcast (MsgStatus st dev))
              (setConnectionState st dev s))
  else
    bpm <- get_prop data "bpm" ;;
    match bpm with
    | Some b =>
        timestamp <- get_prop data "timestamp" ;;
        Normal (spawn (AwaitBroadcast (MsgHr b timestamp))
                  (set_local (<["currentBpm" := b]> (local s))
                     (set_currentBpm b s)))
    | None => Normal s
    end.

(** [ws.onmessage]: the [try] block and its [catch]. *)
Definition onmessage (p : payload) (s : State) : completion State :=
  match onmessage_try p s with
  | Normal s' => Normal s'
  | Throw _ =>
      Normal (emit (ConsoleWarn "PulseOverlay: Failed to parse server message:") s)
  end.

(** The body of [ws.onclose]. *)
Definition onclose (s : State) : State :=
  scheduleReconnect
    (spawn (AwaitBroadcast (MsgStatus (JStr "disconnected") JNull))
       (setConnectionState (JStr "disconnected") JNull
          (set_isConnecting false (set_ws None s)))).

(** The [reconnect] branch of the [chrome.runtime.onMessage] listener. *)
Definition onReconnectMessage (s : State) : State :=
  connect FromReconnect
    (set_autoReconnectEnabled true
       (set_reconnectStartTime None
          (set_reconnectDelay 1000 (disconnect s)))).

(** The [keepAlive] alarm listener. *)
Definition onAlarm (s : State) : State :=
  if autoReconnectEnabled (vars s) && ws_not_open s
  then connect FromAlarm s
  else s.

(** The rest of the [setTimeout] callback after its [await]. *)
Definition timer_after_should (s : State) : State :=
  if shouldBeConnected (sync s) && autoReconnectEnabled (vars s) then
    let s1 := connect FromTimer s in
    set_reconnectDelay (Z.min (reconnectDelay (vars s1) * 2) RECONNECT_MAX_DELAY) s1
  else s.

(** The rest of [handleSettingsChange] after its [await]. *)
Definition settings_after_should (s : State) : State :=
  let shouldConnect := shouldBeConnected (sync s) in
  let disconnected := is_str (connectionState (vars s)) "disconnected" in
  if negb shouldConnect && negb disconnected then
    emit (Broadcast MsgSettingsChanged) (disconnect s)
  else if shouldConnect && disconnected then
    connect FromSettings
      (set_autoReconnectEnabled true
         (set_reconnectStartTime None
            (set_reconnectDelay 1000 s)))
  else
    emit (Broadcast MsgSettingsChanged) s.

(** One suspended continuation runs to its next [await] or to its end.
    [ctor_throws] tells whether [new WebSocket(url)] rejects the URL. *)
Definition run_task (ctor_throws : bool) (t : task) (s : State) : State :=
  match t with
  | ConnectAwaitShould =>
      if shouldBeConnected (sync s)
      then spawn ConnectAwaitSettings s
      else set_isConnecting false s
  | ConnectAwaitSettings =>
      spawn (ConnectAwaitConnecting (serverUrl (sync s)))
        (setConnectionState (JStr "connecting") JNull s)
  | ConnectAwaitConnecting url =>
      let s1 := emit (Broadcast (MsgStatus (JStr "connecting") JNull)) s in
      if ctor_throws then
        spawn ConnectAwaitDisconnected
          (setConnectionState (JStr "disconnected") JNull
             (set_isConnecting false (emit (NewWebSocket url) s1)))
      else
        set_ws (Some (length (sockets s1)))
          (set_sockets (sockets s1 ++ [CONNECTING])%list
             (emit (NewWebSocket url) s1))
  | ConnectAwaitDisconnected =>
      scheduleReconnect
        (emit (Broadcast (MsgStatus (JStr "disconnected") JNull)) s)
  | AwaitBroadcast m => emit (Broadcast m) s
  | TimerAwaitShould => timer_after_should s
  | SettingsAwaitShould => settings_after_should s
  | InstalledAwaitStorage =>
    (* the missing defaults are written to sync storage, which the settings
       record already reads with defaults; then connect() *)
    connect FromInstalled s
  end.

Definition resume (ctor_throws : bool) (k : nat) (s : State) : State :=
  match tasks s !! k with
  | Some t => run_task ctor_throws t (set_tasks (delete k (tasks s)) s)
  | None => s
  end.

(** What the host can do to the service worker. *)
Inductive event :=
| Tick (now : Z)                      (* the wall clock moves to [now] *)
| Resume (k : nat)                    (* the k-th continuation resumes *)
| ResumeCtorThrows (k : nat)          (* same, and [new WebSocket] throws *)
| SocketOpen (i : nat)
| SocketMessage (i : nat) (p : payload)
| SocketError (i : nat)
| SocketClose (i : nat)
| TimerFire                           (* the reconnect timer elapses *)
| Alarm                               (* the keepAlive alarm *)
| GetStateMessage                     (* runtime message 'getState' *)
| SettingsChangedMessage              (* runtime message 'settingsChanged' *)
| ReconnectMessage                    (* runtime message 'reconnect' *)
| SyncStorageChanged (st : Settings)  (* storage.onChanged, namespace 'sync' *)
| Installed                           (* runtime.onInstalled *)
| PeerClosing (i : nat).              (* the server starts the closing
                                         handshake: readyState becomes
                                         CLOSING, no handler runs *)

(** An event the host cannot deliver in the current state (a frame on a
    socket that is not open, a timer that was cleared) changes nothing. *)
Definition step (e : event) (s : State) : State :=
  match e with
  | Tick now => set_clock now s
  | Resume k => resume false k s
  | ResumeCtorThrows k => resume true k s
  | SocketOpen i =>
      match sockets s !! i with
      | Some CONNECTING => onopen (set_sockets (<[i := OPEN]> (sockets s)) s)
      | _ => s
      end
  | SocketMessage i p =>
      match sockets s !! i with
      | Some OPEN =>
          match onmessage p s with
          | Normal s' => s'
          | Throw _ => s
          end
      | _ => s
      end
  | SocketError i =>
      match sockets s !! i with
      | Some CLOSED | None => s
      | Some _ => emit (ConsoleWarn "PulseOverlay: WebSocket error:") s
      end
  | SocketClose i =>
      match sockets s !! i with
      | Some CLOSED | None => s
      | Some _ => onclose (set_sockets (<[i := CLOSED]> (sockets s)) s)
      end
  | TimerFire =>
      match reconnectTimer (vars s) with
      | Some _ => spawn TimerAwaitShould (set_reconnectTimer None s)
      | None => s
      end
  | Alarm => onAlarm s
  | GetStateMessage =>
      emit (SendResponse (connectionState (vars s)) (currentBpm (vars s))) s
  | SettingsChangedMessage => spawn SettingsAwaitShould s
  | ReconnectMessage => onReconnectMessage s
  | SyncStorageChanged st => spawn SettingsAwaitShould (set_sync st s)
  | Installed => spawn InstalledAwaitStorage s
  | PeerClosing i =>
      match sockets s !! i with
      | Some OPEN => set_sockets (<[i := CLOSING]> (sockets s)) s
      | _ => s
      end
  end.

Definition run (tr : list event) (s : State) : State :=
  fold_left (fun s e => step e s) tr s.

(** The state once the script's top level has run: the variables at their
    initial values and the trailing [connect()] suspended at its first
    [await]. *)
Definition boot (st : Settings) (stored : gmap string json) : State :=
  connect FromStartup
    {| vars := initial_vars; sockets := []; local := stored; sync := st;
       clock := 0; tasks := []; out := [] |}.

(** Sockets that are open or still connecting. *)
Definition is_live (r : ReadyState) : bool :=
  match r with
  | OPEN | CONNECTING => true
  | _ => false
  end.

Definition live_sockets (s : State) : nat :=
  length (List.filter is_live (sockets s)).

(** The delays passed to [setTimeout], in order. *)
Fixpoint timeouts (l : list effect) : list Z :=
  match l with
  | [] => []
  | SetTimeout d :: rest => d :: timeouts rest
  | _ :: rest => timeouts rest
  end.


End Background.

(** ** Scenarios used by the properties below *)

Module Scenarios.
Import Background.

(** Samples arriving live, one every ten seconds from t = 0 s to
    t = 100 s, each stamped with its arrival time. *)
Definition live_inserts : list PulseGraph.Insert :=
  List.map (fun t => {| PulseGraph.value := 70;
                        PulseGraph.stamp := Some t;
                        PulseGraph.at_time := t |})
           [0; 10000; 20000; 30000; 40000; 50000; 60000; 70000; 80000;
            90000; 100000].

Definition only_a_enabled : Settings := {|
  enabled := false; serverUrl := "ws://localhost:8765";
  displayMode := "standard"; position := "bottom-right"; size := "medium";
  graphDuration := 60;
  siteOverrides := {[ "a.com" := JBool true ]}
|}.

Definition only_a_disabled : Settings := {|
  enabled := true; serverUrl := "ws://localhost:8765";
  displayMode := "standard"; position := "bottom-right"; size := "medium";
  graphDuration := 60;
  siteOverrides := {[ "a.com" := JBool false ]}
|}.

(** A surface that has been mounted on a page. *)
Definition mounted (host : string) : PulseOverlay.t :=
  PulseOverlay.createOverlay (PulseOverlay.create host PULSE_DEFAULTS).

(** The three continuations of a [connect()] that goes through, resumed
    one after the other when nothing else is suspended. *)
Definition establish : list event := [Resume 0%nat; Resume 0%nat; Resume 0%nat].

(** The worker started with default settings, its first socket opened. *)
Definition connected : State :=
  run (establish ++ [SocketOpen 0%nat; Resume 0%nat]) (boot PULSE_DEFAULTS ∅).

(** The user asks for a reconnect while connected; the new socket is
    created and opens before the close event of the old one arrives; the
    backoff timer armed by that close event then fires. *)
Definition reconnect_race : list event :=
  [ReconnectMessage] ++ establish ++
  [SocketOpen 1%nat; Resume 0%nat;
   Tick 5000; SocketClose 0%nat; Resume 0%nat;
   Tick 6000; TimerFire; Resume 0%nat] ++ establish.

(** The same race without a manual reconnect: the overlay is switched off
    and on again in the settings while connected. *)
Definition all_off : Settings := {|
  enabled := false; serverUrl := "ws://localhost:8765";
  displayMode := "standard"; position := "bottom-right"; size := "medium";
  graphDuration := 60; siteOverrides := ∅
|}.

Definition toggle_race : list event :=
  [SyncStorageChanged all_off; Resume 0%nat;
   SyncStorageChanged PULSE_DEFAULTS; Resume 0%nat] ++ establish ++
  [SocketOpen 1%nat; Resume 0%nat;
   Tick 5000; SocketClose 0%nat; Resume 0%nat;
   Tick 6000; TimerFire; Resume 0%nat] ++ establish.

(** One failed cycle: socket [i] closes at time [t], the status broadcast
    goes out, the backoff timer fires, and the retry creates socket
    [S i]. *)
Definition failed_cycle (i : nat) (t : Z) : list event :=
  [Tick t; SocketClose i; Resume 0%nat; TimerFire; Resume 0%nat] ++ establish.

Fixpoint failed_cycles (i : nat) (ts : list Z) : list event :=
  match ts with
  | [] => []
  | t :: rest => failed_cycle i t ++ failed_cycles (S i) rest
  end.


(** Close times of an episode in which every timer fires on time and
    every retry fails at once. *)
Definition on_time : list Z := [0; 1000; 3000; 7000; 15000; 31000].

(** The same episode up to the close that finds the window exceeded. *)
Definition timed_out : State :=
  run (failed_cycles 0 on_time ++ [Tick 61000; SocketClose 6%nat; Resume 0%nat])
      connected.

(** A settings change (here the display mode) after the time-out,
    followed by one more failed attempt. *)
Definition graph_mode : Settings := {|
  enabled := true; serverUrl := "ws://localhost:8765";
  displayMode := "graph"; position := "bottom-right"; size := "medium";
  graphDuration := 60; siteOverrides := ∅
|}.




Definition has_field (data : json) (key : string) : bool :=
  match data with
  | JObj fields =>
      match assoc key fields with
      | Some _ => true
      | None => false
      end
  | _ => false
  end.

(** A frame that is not JSON, or JSON carrying neither [bpm] nor
    [status]. *)
Definition malformed (p : payload) : bool :=
  match p with
  | NotJson => true
  | Json data => negb (has_field data "bpm") && negb (has_field data "status")
  end.

(** The malformed frames on which the [try] block throws. *)
Definition throws (p : payload) : bool :=
  match p with
  | NotJson => true
  | Json JNull => true
  | Json _ => false
  end.

(** A close at time [t] is inside the retry window that started at
    [start]; with no window open, it opens one. *)
Definition in_window (start : option Z) (t : Z) : Prop :=
  match start with
  | Some t0 => t - t0 <= RECONNECT_TIMEOUT
  | None => True
  end.











End Scenarios.

(** ** overlay/graph.js: what [draw] reads *)

Module PulseGraphDraw.
Import PulseGraph.

(** [const bpmRange = Math.max(1, this.maxBpm - this.minBpm)], the divisor
    of the vertical mapping. *)
Definition bpmRange (g : t) : Z := Z.max 1 (maxBpm g - minBpm g).

(** The timestamp an insert is stored with. *)
Definition stamped (i : Insert) : Z := or_now (stamp i) (at_time i).

Definition ascending (l : list Point) : Prop :=
  StronglySorted (fun p q => timestamp p <= timestamp q) l.

End PulseGraphDraw.

(** ** The overlay component: mounting, unmounting and listeners

    [settings.opacity] is a number that the component only compares; it is
    kept beside the settings record, in hundredths.  [registered] lists
    the callbacks this surface currently has registered with
    [chrome.storage.onChanged] and [chrome.runtime.onMessage], one entry per
    subscription. *)

Module Surface.
Import PulseOverlay.

Inductive listener := StateListener | HeartRateListener | SettingsListener.

Definition listener_eqb (a b : listener) : bool :=
  match a, b with
  | StateListener, StateListener => true
  | HeartRateListener, HeartRateListener => true
  | SettingsListener, SettingsListener => true
  | _, _ => false
  end.

Record t := {
  overlay : PulseOverlay.t;
  opacity : Z;
  _unsubscribeState : bool;       (* the handle is not null *)
  _unsubscribeHR : bool;
  _unsubscribeSettings : bool;
  registered : list listener
}.

(** Calling an unsubscribe handle removes that one registration. *)
Fixpoint removeListener (k : listener) (reg : list listener) : list listener :=
  match reg with
  | [] => []
  | x :: rest => if listener_eqb k x then rest else x :: removeListener k rest
  end.

Definition set_overlay (o : PulseOverlay.t) (sf : t) : t := {|
  overlay := o; opacity := opacity sf;
  _unsubscribeState := _unsubscribeState sf;
  _unsubscribeHR := _unsubscribeHR sf;
  _unsubscribeSettings := _unsubscribeSettings sf;
  registered := registered sf
|}.

Definition set_settings (st : Settings) (o : PulseOverlay.t) : PulseOverlay.t := {|
  hostname := hostname o; container := container o; graph := graph o;
  settings := st; currentBpm := currentBpm o;
  connectionState := connectionState o
|}.

(** [setupListeners]: two subscriptions, their handles stored. *)
Definition setupListeners (sf : t) : t := {|
  overlay := overlay sf; opacity := opacity sf;
  _unsubscribeState := true;
  _unsubscribeHR := true;
  _unsubscribeSettings := _unsubscribeSettings sf;
  registered := registered sf ++ [StateListener; HeartRateListener]
|}.

(** [removeOverlay]: the data listeners go, the graph is cleared and
    dropped, the DOM node is removed; the settings listener, the cached
    value and the cached phase stay. *)
Definition removeOverlay (sf : t) : t :=
  let reg1 := if _unsubscribeState sf
              then removeListener StateListener (registered sf)
              else registered sf in
  let reg2 := if _unsubscribeHR sf
              then removeListener HeartRateListener reg1
              else reg1 in
  {| overlay := set_graph None (set_container None (overlay sf));
     opacity := opacity sf;
     _unsubscribeState := false;
     _unsubscribeHR := false;
     _unsubscribeSettings := _unsubscribeSettings sf;
     registered := reg2 |}.

Definition destroy (sf : t) : t :=
  let sf1 := removeOverlay sf in
  {| overlay := overlay sf1; opacity := opacity sf1;
     _unsubscribeState := _unsubscribeState sf1;
     _unsubscribeHR := _unsubscribeHR sf1;
     _unsubscribeSettings := false;
     registered := if _unsubscribeSettings sf1
                   then removeListener SettingsListener (registered sf1)
                   else registered sf1 |}.

(** [init] once [getSettings()] has returned: the settings listener is
    registered in every case; the node and the data listeners only when the
    surface is to be shown.  The flag tells whether [init] goes on to
    [await PulseState.getState()] (continued by [PulseOverlay.seed]). *)
Definition init (host : string) (st : Settings) (op : Z) : t * bool :=
  let sf := {| overlay := PulseOverlay.create host st; opacity := op;
               _unsubscribeState := false; _unsubscribeHR := false;
               _unsubscribeSettings := true;
               registered := [SettingsListener] |} in
  if negb (shouldShow (overlay sf)) then (sf, false)
  else (setupListeners (set_overlay (createOverlay (overlay sf)) sf), true).

(** The comparison inside [needsRecreate]. *)
Definition layout_changed (old new : Settings) (oldOp newOp : Z) : bool :=
  negb (String.eqb (displayMode old) (displayMode new))
  || negb (String.eqb (position old) (position new))
  || negb (String.eqb (size old) (size new))
  || negb (oldOp =? newOp)
  || negb (graphDuration old =? graphDuration new).

(** [handleSettingsChange] once [getSettings()] has returned [new] and
    [newOp].  [oldSettings] and [oldOp] are what [const oldSettings =
    this.settings] captured when the handler was called, before the
    [await]: other handlers may have run on [sf] in between.  The listener
    is registered after [init] has assigned [this.settings], so the captured
    value is never null.  The flag tells whether the handler goes on to
    [await PulseState.getState()] (continued by [PulseOverlay.seed]);
    otherwise it has finished. *)
Definition handleSettingsChange (oldSettings : Settings) (oldOp : Z)
    (new : Settings) (newOp : Z) (sf : t) : t * bool :=
  let sf1 := {| overlay := set_settings new (overlay sf); opacity := newOp;
                _unsubscribeState := _unsubscribeState sf;
                _unsubscribeHR := _unsubscribeHR sf;
                _unsubscribeSettings := _unsubscribeSettings sf;
                registered := registered sf |} in
  if negb (shouldShow (overlay sf1)) then (removeOverlay sf1, false)
  else
    let needsRecreate :=
      match container (overlay sf1) with
      | Some _ => layout_changed oldSettings new oldOp newOp
      | None => false
      end in
    let sf2 := if needsRecreate then removeOverlay sf1 else sf1 in
    match container (overlay sf2) with
    | None =>
        (setupListeners (set_overlay (createOverlay (overlay sf2)) sf2), true)
    | Some _ =>
        (set_overlay (updateDisplay (overlay sf2)) sf2, false)
    end.

(** The handler called on [sf] with nothing else in between: the captured
    settings are the ones [sf] holds. *)
Definition handleSettingsChange_now (new : Settings) (newOp : Z) (sf : t) : t * bool :=
  handleSettingsChange (settings (overlay sf)) (opacity sf) new newOp sf.

(** What can happen to a surface after [init].  A settings handler
    resumes with the settings it captured at its call, whatever they
    were, and with what [getSettings()] returned. *)
Inductive op :=
| SettingsChanged (oldSettings : Settings) (oldOp : Z) (new : Settings) (newOp : Z)
| Data (e : PulseOverlay.event)
| Destroy.

Definition apply (sf : t) (o : op) : t :=
  match o with
  | SettingsChanged oldSettings oldOp new newOp =>
      fst (handleSettingsChange oldSettings oldOp new newOp sf)
  | Data e =>
      (* a listener runs only while it is registered; the continuation
         after getState() runs in any case *)
      let delivered :=
        match e with
        | Seed _ _ _ => true
        | StateChange _ => _unsubscribeState sf
        | HeartRate _ _ _ => _unsubscribeHR sf
        end in
      if delivered then set_overlay (handle (overlay sf) e) sf else sf
  | Destroy => destroy sf
  end.

Definition is_mounted (o : PulseOverlay.t) : bool :=
  match container o with
  | Some _ => true
  | None => false
  end.

Definition count (k : listener) (reg : list listener) : nat :=
  length (List.filter (listener_eqb k) reg).

(** No subscription without a handle and none twice; the data listeners
    exist exactly while the node is mounted. *)
Definition tidy (sf : t) : Prop :=
  count StateListener (registered sf) = (if _unsubscribeState sf then 1 else 0)%nat /\
  count HeartRateListener (registered sf) = (if _unsubscribeHR sf then 1 else 0)%nat /\
  count SettingsListener (registered sf) = (if _unsubscribeSettings sf then 1 else 0)%nat /\
  _unsubscribeState sf = _unsubscribeHR sf /\
  (_unsubscribeState sf = true <-> container (overlay sf) <> None).

End Surface.

(** ** popup.js and options/options.js: editing the per-site overrides *)

Module SiteSettings.

Definition with_overrides (ov : gmap string json) (st : Settings) : Settings := {|
  enabled := enabled st; serverUrl := serverUrl st;
  displayMode := displayMode st; position := position st; size := size st;
  graphDuration := graphDuration st; siteOverrides := ov
|}.

(** popup.js: [siteOverride === true || (settings.enabled && siteOverride !== false)],
    the state the site toggle is shown in. *)
Definition siteToggle_checked (hostname : string) (st : Settings) : bool :=
  let siteOverride := siteOverrides st !! hostname in
  is_true siteOverride || (enabled st && negb (is_false siteOverride)).

(** [overrides[key] = b] for a boolean [b], on a plain object whose own
    properties are the entries of the map.  An ordinary key gets an own
    property.  The key [__proto__], unless the object has an own property
    of that name, reaches the accessor inherited from [Object.prototype],
    whose setter ignores a value that is neither an object nor null:
    nothing is stored. *)
Definition assign_bool (key : string) (b : bool)
    (overrides : gmap string json) : gmap string json :=
  if String.eqb key "__proto__" then
    match overrides !! key with
    | Some _ => <[key := JBool b]> overrides
    | None => overrides
    end
  else <[key := JBool b]> overrides.

(** popup.js: the site toggle's change handler, on the settings it
    fetched; the result is what it writes to [siteOverrides].  The spread
    copies the own properties; [delete] removes an own property. *)
Definition siteToggle_change (checked : bool) (hostname : string)
    (currentSettings : Settings) : gmap string json :=
  let overrides := siteOverrides currentSettings in
  if checked then
    if enabled currentSettings
    then delete hostname overrides
    else assign_bool hostname true overrides
  else assign_bool hostname false overrides.

(** options.js [addSiteOverride], on the trimmed, lower-cased input. *)
Definition addSiteOverride (site : string) (state : bool)
    (overrides : gmap string json) : gmap string json :=
  if String.eqb site "" then overrides
  else assign_bool site state overrides.

(** options.js [removeSiteOverride]. *)
Definition removeSiteOverride (site : string)
    (overrides : gmap string json) : gmap string json :=
  delete site overrides.

End SiteSettings.

(** ** background.js: the defaults written by [onInstalled]

    Here [chrome.storage.sync] is the raw key-value store and the defaults
    table is a parameter. *)

Module Install.

(** The loop over [Object.entries(PULSE_DEFAULTS)]: the entries whose key
    is not in the store. *)
Definition missing (defaults current : gmap string json) : gmap string json :=
  filter (fun kv => current !! kv.1 = None) defaults.

(** The store after the handler: [chrome.storage.sync.set(defaults)] is
    called only when something is missing, and overwrites the keys it is
    given. *)
Definition onInstalled (defaults current : gmap string json) : gmap string json :=
  match map_to_list (missing defaults current) with
  | [] => current
  | _ :: _ => missing defaults current ∪ current
  end.

(** [chrome.storage.sync.get(defaults)]: the stored value of every key of
    [defaults] that is stored, the default for the others. *)
Definition get (defaults store : gmap string json) : gmap string json :=
  map_imap (fun k d => Some (default d (store !! k))) defaults.

End Install.

(** ** Predicates on the connection manager's state *)

Module Invariants.
Import Background.

Definition delay_in_range (d : Z) : Prop := 1000 <= d <= RECONNECT_MAX_DELAY.

(** The backoff delay, the pending timer and every delay ever handed to
    [setTimeout]. *)
Definition delays_in_range (s : State) : Prop :=
  delay_in_range (reconnectDelay (vars s)) /\
  (forall d, reconnectTimer (vars s) = Some d -> delay_in_range d) /\
  List.Forall delay_in_range (timeouts (out s)).







(** A [connect] that has already been told it should connect. *)
Definition past_check (t : task) : bool :=
  match t with
  | ConnectAwaitSettings | ConnectAwaitConnecting _ => true
  | _ => false
  end.

(** Events that leave the settings asking for no connection. *)
Definition keeps_off (e : event) : bool :=
  match e with
  | SyncStorageChanged st => negb (shouldBeConnected st)
  | _ => true
  end.

(** The manager is idle and off: no connection wanted, and no [connect]
    already past its check. *)
Definition switched_off (s : State) : Prop :=
  shouldBeConnected (sync s) = false /\
  List.Forall (fun t => past_check t = false) (tasks s).

(** What the bounds on delays look at. *)
Definition delay_view (s : State) : Z * option Z * list Z :=
  (reconnectDelay (vars s), reconnectTimer (vars s), timeouts (out s)).

(** A frame that the manager takes as a status update, and one it takes
    as a sample. *)
Definition status_of (fields : list (string * json)) : jsval :=
  if truthy (assoc "status" fields) then assoc "status" fields else None.

Definition sample_of (fields : list (string * json)) : jsval :=
  if truthy (assoc "status" fields) then None else assoc "bpm" fields.

End Invariants.

(** * Properties *)

(** ** Visibility of the render surface *)

Module VisibilityProps.
Import PulseOverlay Scenarios.

(** C4: the visibility decision is "show" when the page's host is
    overridden to [true], "hide" when it is overridden to [false], and the
    global switch in every other case; with the global switch off and
    a.com forced on, a.com shows and b.com does not; with the global switch
    on and a.com forced off, a.com hides and b.com shows. *)
Theorem shouldShow_three_valued :
  (forall o : t,
      (siteOverrides (settings o) !! hostname o = Some (JBool true) ->
       shouldShow o = true) /\
      (siteOverrides (settings o) !! hostname o = Some (JBool false) ->
       shouldShow o = false) /\
      (siteOverrides (settings o) !! hostname o <> Some (JBool true) ->
       siteOverrides (settings o) !! hostname o <> Some (JBool false) ->
       shouldShow o = enabled (settings o))) /\
  shouldShow (create "a.com" only_a_enabled) = true /\
  shouldShow (create "b.com" only_a_enabled) = false /\
  shouldShow (create "a.com" only_a_disabled) = false /\
  shouldShow (create "b.com" only_a_disabled) = true.
Proof.
  split.
  - intros o. unfold shouldShow.
    destruct (siteOverrides (settings o) !! hostname o) as [v|] eqn:E.
    + destruct v as [ | [|] | | | | ]; simpl;
        repeat split; intros; try congruence; reflexivity.
    + simpl. repeat split; intros; try congruence; reflexivity.
  - repeat split; vm_compute; reflexivity.
Qed.

Lemma shouldShow_three_valued_witness :
  shouldShow (create "a.com" only_a_enabled) = true /\
  shouldShow (create "a.com" only_a_disabled) = false /\
  shouldShow (create "b.com" only_a_enabled) = enabled only_a_enabled.
Proof.
  pose proof shouldShow_three_valued as [H _].
  split; [|split].
  - apply (H (create "a.com" only_a_enabled)). vm_compute. reflexivity.
  - apply (H (create "a.com" only_a_disabled)). vm_compute. reflexivity.
  - apply (H (create "b.com" only_a_enabled)); vm_compute; discriminate.
Defined.

End VisibilityProps.

(** ** The rolling-window graph *)

Module GraphProps.
Import PulseGraph Scenarios.

Lemma clamp_range (b : Z) : 40 <= clamp b <= 220.
Proof. unfold clamp. lia. Qed.

Lemma Math_min_range (xs : list Z) : forall x,
  40 <= x <= 220 -> List.Forall (fun y => 40 <= y <= 220) xs ->
  40 <= Math_min x xs <= 220.
Proof.
  unfold Math_min.
  induction xs as [|y ys IH]; intros x Hx Hall; simpl; [exact Hx|].
  inversion Hall; subst. apply IH; [lia|assumption].
Qed.

Lemma Math_max_range (xs : list Z) : forall x,
  40 <= x <= 220 -> List.Forall (fun y => 40 <= y <= 220) xs ->
  40 <= Math_max x xs <= 220.
Proof.
  unfold Math_max.
  induction xs as [|y ys IH]; intros x Hx Hall; simpl; [exact Hx|].
  inversion Hall; subst. apply IH; [lia|assumption].
Qed.

(** [Math_min] really is the least element, [Math_max] the greatest. *)
Lemma Math_min_least (xs : list Z) : forall x,
  (Math_min x xs = x \/ In (Math_min x xs) xs) /\
  Math_min x xs <= x /\ List.Forall (fun y => Math_min x xs <= y) xs.
Proof.
  unfold Math_min.
  induction xs as [|y ys IH]; intros x; simpl.
  - split; [left; reflexivity|]. split; [lia|constructor].
  - destruct (IH (Z.min x y)) as (Hin & Hle & Hall).
    split; [|split].
    + destruct Hin as [-> | Hin]; [|right; right; exact Hin].
      destruct (Z.min_spec x y) as [[_ ->] | [_ ->]]; auto.
    + lia.
    + constructor; [lia|exact Hall].
Qed.

Lemma Math_max_greatest (xs : list Z) : forall x,
  (Math_max x xs = x \/ In (Math_max x xs) xs) /\
  x <= Math_max x xs /\ List.Forall (fun y => y <= Math_max x xs) xs.
Proof.
  unfold Math_max.
  induction xs as [|y ys IH]; intros x; simpl.
  - split; [left; reflexivity|]. split; [lia|constructor].
  - destruct (IH (Z.max x y)) as (Hin & Hle & Hall).
    split; [|split].
    + destruct Hin as [-> | Hin]; [|right; right; exact Hin].
      destruct (Z.max_spec x y) as [[_ ->] | [_ ->]]; auto.
    + lia.
    + constructor; [lia|exact Hall].
Qed.

Lemma clamped_all (l : list Point) :
  List.Forall (fun y => 40 <= y <= 220) (List.map (fun p => clamp (bpm p)) l).
Proof.
  induction l as [|p l IH]; simpl; constructor; [apply clamp_range|exact IH].
Qed.

Lemma points_addPoint (g : t) (b : Z) (ts : option Z) (now : Z) :
  points (addPoint g b ts now) =
  List.filter (fun p => now - duration g * 1000 <? timestamp p)
              (points g ++ [{| bpm := b; timestamp := or_now ts now |}]).
Proof. unfold addPoint. simpl. destruct (List.map _ _); reflexivity. Qed.

Lemma duration_addPoint (g : t) (b : Z) (ts : option Z) (now : Z) :
  duration (addPoint g b ts now) = duration g.
Proof. unfold addPoint. simpl. destruct (List.map _ _); reflexivity. Qed.

(** C5: after an insert at clock [now], every retained sample is newer
    than [now - duration * 1000], and a pushed sample is retained exactly
    when it is; points arriving live at 0, 10, ..., 100 s into a 60 s
    window leave the six points stamped 50 s to 100 s. *)
Theorem addPoint_keeps_window :
  (forall (g : t) (b : Z) (ts : option Z) (now : Z),
      List.Forall (fun p => now - duration g * 1000 < timestamp p)
                  (points (addPoint g b ts now)) /\
      (forall p,
          In p (points g ++ [{| bpm := b; timestamp := or_now ts now |}]) ->
          (In p (points (addPoint g b ts now)) <->
           now - duration g * 1000 < timestamp p))) /\
  List.map timestamp (points (feed (create 60) live_inserts)) =
    [50000; 60000; 70000; 80000; 90000; 100000].
Proof.
  split; [|vm_compute; reflexivity].
  intros g b ts now. rewrite points_addPoint. split.
  - apply List.Forall_forall. intros p Hp.
    apply filter_In in Hp as [_ Hp]. lia.
  - intros p Hin. rewrite filter_In. split.
    + intros [_ Hp]. lia.
    + intros Hp. split; [exact Hin|lia].
Qed.

Lemma addPoint_keeps_window_witness :
  In {| bpm := 70; timestamp := 50000 |}
     (points (addPoint (feed (create 60) live_inserts) 71 (Some 105000) 105000)).
Proof.
  pose proof addPoint_keeps_window as [H _].
  destruct (H (feed (create 60) live_inserts) 71 (Some 105000) 105000)
    as [_ Hiff].
  apply (proj2 (Hiff {| bpm := 70; timestamp := 50000 |}
                     ltac:(vm_compute; left; reflexivity))).
  vm_compute. reflexivity.
Defined.





End GraphProps.

(** ** The value display of the render surface *)

Module DisplayProps.
Import PulseOverlay Scenarios.

Lemma updateDisplay_mounted (o : t) :
  container o <> None -> container (updateDisplay o) <> None.
Proof.
  unfold updateDisplay. destruct (container o) eqn:E; [|congruence].
  intros _. destruct (currentBpm o); [destruct (String.eqb _ _)|];
    simpl; discriminate.
Qed.

Lemma updateDisplay_state (o : t) :
  connectionState (updateDisplay o) = connectionState o /\
  currentBpm (updateDisplay o) = currentBpm o.
Proof.
  unfold updateDisplay. destruct (container o); [|tauto].
  destruct (currentBpm o) eqn:E; [destruct (String.eqb _ _)|];
    simpl; rewrite ?E; tauto.
Qed.

Lemma updateDisplay_placeholder (o : t) :
  container o <> None -> connectionState o <> "connected" ->
  displayed (updateDisplay o) = Some "--".
Proof.
  unfold updateDisplay, displayed. destruct (container o); [|congruence].
  intros _ Hne. apply String.eqb_neq in Hne. rewrite Hne.
  destruct (currentBpm o); reflexivity.
Qed.

Lemma updateDisplay_value (o : t) (b : Z) :
  container o <> None -> connectionState o = "connected" ->
  currentBpm o = Some b ->
  displayed (updateDisplay o) = Some (num_to_string b).
Proof.
  unfold updateDisplay, displayed. destruct (container o); [|congruence].
  intros _ Hc Hb. apply String.eqb_eq in Hc. rewrite Hb, Hc. reflexivity.
Qed.

Lemma updateDisplay_consistent (o : t) :
  container o <> None -> consistent (updateDisplay o).
Proof.
  intros Hm. split; [apply updateDisplay_mounted; exact Hm|].
  intros Hne. apply updateDisplay_placeholder; [exact Hm|].
  rewrite (proj1 (updateDisplay_state _)) in Hne. exact Hne.
Qed.

Lemma set_graph_consistent (g : option PulseGraph.t) (o : t) :
  consistent o -> consistent (set_graph g o).
Proof. intros H. exact H. Qed.

Lemma handle_consistent (o : t) (e : event) :
  container o <> None -> consistent (handle o e).
Proof.
  intros Hm. destruct e as [st bpm now | st | b ts now]; simpl.
  - unfold seed. destruct bpm as [b|].
    + destruct (graph _); apply updateDisplay_consistent; exact Hm.
    + apply updateDisplay_consistent; exact Hm.
  - unfold onStateChange. apply updateDisplay_consistent. exact Hm.
  - unfold onHeartRate.
    pose proof (updateDisplay_consistent (set_currentBpm (Some b) o) Hm) as Hc.
    destruct (graph _); [apply set_graph_consistent|]; exact Hc.
Qed.

Lemma run_consistent (es : list event) : forall o,
  consistent o -> consistent (fold_left handle es o).
Proof.
  induction es as [|e es IH]; intros o Ho; simpl; [exact Ho|].
  apply IH. apply handle_consistent. exact (proj1 Ho).
Qed.

Lemma onHeartRate_displayed (b : Z) (ts : option Z) (now : Z) (o : t) :
  displayed (onHeartRate b ts now o) =
  displayed (updateDisplay (set_currentBpm (Some b) o)).
Proof. unfold onHeartRate. destruct (graph _); reflexivity. Qed.

Lemma onHeartRate_currentBpm (b : Z) (ts : option Z) (now : Z) (o : t) :
  currentBpm (onHeartRate b ts now o) = Some b.
Proof.
  unfold onHeartRate.
  pose proof (proj2 (updateDisplay_state (set_currentBpm (Some b) o))) as H.
  destruct (graph _); simpl; exact H.
Qed.

(** C7: on a mounted surface the value text is the placeholder "--"
    whenever the phase is not 'connected', whatever samples were cached
    before; a sample arriving while the phase is 'connected' is displayed;
    the same sample arriving in any other phase is cached but the
    placeholder stays.  72 shows as "72" when connected and as "--" when
    disconnected. *)
Theorem placeholder_unless_connected :
  (forall (host : string) (st : Settings) (es : list event),
      let o := fold_left handle es (createOverlay (create host st)) in
      connectionState o <> "connected" -> displayed o = Some "--") /\
  (forall (o : t) (b : Z) (ts : option Z) (now : Z),
      container o <> None -> connectionState o = "connected" ->
      displayed (onHeartRate b ts now o) = Some (num_to_string b)) /\
  (forall (o : t) (b : Z) (ts : option Z) (now : Z),
      container o <> None -> connectionState o <> "connected" ->
      displayed (onHeartRate b ts now o) = Some "--" /\
      currentBpm (onHeartRate b ts now o) = Some b) /\
  displayed (onHeartRate 72 (Some 1700000000000) 1700000000005
               (onStateChange "connected" (mounted "example.org"))) = Some "72" /\
  displayed (onHeartRate 72 (Some 1700000000000) 1700000000005
               (mounted "example.org")) = Some "--" /\
  currentBpm (onHeartRate 72 (Some 1700000000000) 1700000000005
                (mounted "example.org")) = Some 72.
Proof.
  split; [|split; [|split; [|repeat split; vm_compute; reflexivity]]].
  - intros host st es o. subst o.
    apply (run_consistent es). split; [simpl; discriminate|].
    intros _. reflexivity.
  - intros o b ts now Hm Hc.
    rewrite onHeartRate_displayed.
    apply (updateDisplay_value _ b); [exact Hm|exact Hc|reflexivity].
  - intros o b ts now Hm Hne. split.
    + rewrite onHeartRate_displayed.
      apply updateDisplay_placeholder; [exact Hm|exact Hne].
    + rewrite onHeartRate_currentBpm. reflexivity.
Qed.

Lemma placeholder_unless_connected_witness :
  displayed (fold_left handle
               [StateChange "connected"; HeartRate 72 None 5; StateChange "disconnected"]
               (createOverlay (create "example.org" PULSE_DEFAULTS))) = Some "--".
Proof.
  pose proof placeholder_unless_connected as [H _].
  apply (H "example.org" PULSE_DEFAULTS
           [StateChange "connected"; HeartRate 72 None 5; StateChange "disconnected"]).
  vm_compute. discriminate.
Defined.

End DisplayProps.

(** ** Reading the shared state store *)

Module StateStoreProps.
Import Background Scenarios.

Lemma getState_default :
  PulseState.getState ∅ =
  {| PulseState.connectionState := JStr "disconnected";
     PulseState.connectedDevice := JNull;
     PulseState.currentBpm := JNull |}.
Proof. reflexivity. Qed.

(** A stored value comes back unchanged when it is truthy. *)
Lemma getState_truthy (l : gmap string json) (v : json) :
  l !! "currentBpm" = Some v -> truthy (Some v) = true ->
  PulseState.currentBpm (PulseState.getState l) = v.
Proof. intros H Ht. unfold PulseState.getState, js_or. simpl. rewrite H, Ht. reflexivity. Qed.

Lemma setConnectionState_read (st dev : json) (s : State) :
  truthy (Some st) = true ->
  PulseState.connectionState (PulseState.getState (local (setConnectionState st dev s))) = st.
Proof.
  intros Ht. unfold setConnectionState, PulseState.getState, js_or. simpl.
  rewrite lookup_insert_eq, Ht. reflexivity.
Qed.

(** C8 (the code departs from it): a sample with bpm 0 received on the
    open socket is written to the store as 0 and kept as 0 by the manager,
    yet [getState] hands back [null] for it. *)
Theorem getState_loses_zero_bpm :
  let frame := Json (JObj [("bpm", JNum 0); ("timestamp", JNum 1700000000000)]) in
  let s := step (SocketMessage 0%nat frame) connected in
  local s !! "currentBpm" = Some (JNum 0) /\
  Background.currentBpm (vars s) = JNum 0 /\
  PulseState.currentBpm (PulseState.getState (local s)) = JNull /\
  PulseState.currentBpm (PulseState.getState (<["currentBpm" := JNum 72]> (local s)))
    = JNum 72.
Proof. vm_compute. repeat split; reflexivity. Qed.

End StateStoreProps.

(** ** The connection manager *)

Module ManagerProps.
Import Background Scenarios.

#[local] Arguments Z.min : simpl never.
#[local] Arguments Z.ltb : simpl never.
#[local] Arguments Z.mul : simpl never.
#[local] Arguments Z.sub : simpl never.

(** Normalises a state built from setters into a record. *)
Ltac unfold_setters :=
  cbv beta iota delta
      [vars sockets local sync clock tasks out ws isConnecting connectionState
       currentBpm reconnectDelay reconnectTimer reconnectStartTime
       autoReconnectEnabled set_ws set_isConnecting set_connectionState
       set_currentBpm set_reconnectDelay set_reconnectTimer
       set_reconnectStartTime set_autoReconnectEnabled set_sockets set_local
       set_sync set_clock set_tasks with_vars emit spawn setConnectionState].

Ltac rsimpl :=
  unfold_setters;
  cbn [app lookup list_lookup delete list_delete run_task negb andb orb];
  unfold_setters.

Lemma run_cons (e : event) (tr : list event) (s : State) :
  run (e :: tr) s = run tr (step e s).
Proof. reflexivity. Qed.


Lemma timeouts_app (l1 l2 : list effect) :
  timeouts (l1 ++ l2) = timeouts l1 ++ timeouts l2.
Proof. induction l1 as [|[] l1 IH]; simpl; rewrite ?IH; reflexivity. Qed.


(** *** The connect guard *)

Lemma connect_noop_when_busy (o : origin) (s : State) :
  isConnecting (vars s) = true \/ ws_open_or_connecting s = true ->
  connect o s = s.
Proof.
  intros H. unfold connect.
  destruct H as [-> | ->]; rewrite ?orb_true_r; reflexivity.
Qed.

(** The flag is raised in the same uninterrupted run that tested it. *)
Lemma connect_raises_flag (o : origin) (s : State) :
  isConnecting (vars s) = false -> ws_open_or_connecting s = false ->
  isConnecting (vars (connect o s)) = true /\
  sockets (connect o s) = sockets s /\
  tasks (connect o s) = tasks s ++ [ConnectAwaitShould].
Proof.
  intros H1 H2. unfold connect. rewrite H1, H2. simpl. repeat split.
Qed.

(** C1 (the code departs from it): the user asks for a reconnect while
    connected; [disconnect] starts closing socket 0 and drops it, the new
    [connect] creates socket 1, which opens; then the close event of
    socket 0 runs [onclose], which clears [ws] although it now names
    socket 1, and arms the backoff timer; when the timer fires [connect]
    passes its guard and creates socket 2 while socket 1 is still open.
    Switching the overlay off and on again in the settings has the same
    outcome. *)
Theorem reconnect_race_opens_second_socket :
  let s := run reconnect_race connected in
  sockets connected = [OPEN] /\
  sockets s = [CLOSED; OPEN; CONNECTING] /\
  live_sockets s = 2%nat /\
  ws (vars s) = Some 2%nat /\
  sockets (step (SocketOpen 2%nat) s) = [CLOSED; OPEN; OPEN] /\
  sockets (run toggle_race connected) = [CLOSED; OPEN; CONNECTING].
Proof. vm_compute. repeat split; reflexivity. Qed.

(** *** Inbound frames *)

Lemma assoc_absent (data : json) (key : string) :
  has_field data key = false -> data <> JNull -> get_prop data key = Normal None.
Proof.
  destruct data; simpl; try reflexivity; try congruence.
  destruct (assoc key fields); [discriminate|reflexivity].
Qed.

(** C9, as the code has it: a frame that is not JSON, or is JSON with
    neither a bpm nor a status field, is dropped: the handler returns
    normally and leaves the variables (the phase among them), the sockets,
    the store and the suspended continuations as they were, so no sample
    goes out and the connection stays open.  A warning is logged exactly
    when the frame is not JSON or is the JSON value null; any other such
    frame is dropped without a log entry. *)
Theorem malformed_frame_dropped (s : State) (i : nat) (p : payload) :
  sockets s !! i = Some OPEN -> malformed p = true ->
  exists s',
    onmessage p s = Normal s' /\
    step (SocketMessage i p) s = s' /\
    vars s' = vars s /\ sockets s' = sockets s /\ local s' = local s /\
    tasks s' = tasks s /\
    out s' = out s ++
             (if throws p
              then [ConsoleWarn "PulseOverlay: Failed to parse server message:"]
              else []).
Proof.
  intros Hopen Hmal. cbn [step]. rewrite Hopen.
  destruct p as [|data].
  - eexists. split; [reflexivity|]. repeat split.
  - cbn [malformed] in Hmal. apply andb_true_iff in Hmal as [Hb Hs].
    apply negb_true_iff in Hb, Hs.
    destruct data as [ | b | n | str | items | fields ];
      try (eexists; split; [reflexivity|]; rewrite ?app_nil_r; repeat split; fail).
    unfold onmessage, onmessage_try. cbn [JSON_parse bind].
    rewrite (assoc_absent _ "status" Hs ltac:(discriminate)). cbn [bind truthy].
    rewrite (assoc_absent _ "bpm" Hb ltac:(discriminate)). cbn [bind throws].
    exists s. rewrite app_nil_r. repeat split.
Qed.

Lemma malformed_frame_dropped_witness :
  exists s',
    onmessage NotJson connected = Normal s' /\
    step (SocketMessage 0%nat NotJson) connected = s' /\
    vars s' = vars connected /\ sockets s' = sockets connected /\
    local s' = local connected /\ tasks s' = tasks connected /\
    out s' = out connected ++
             [ConsoleWarn "PulseOverlay: Failed to parse server message:"].
Proof.
  apply (malformed_frame_dropped connected 0%nat NotJson); reflexivity.
Defined.

(** C9 as stated fails: a frame that parses as JSON and has neither
    field is dropped without anything being logged. *)
Lemma unrecognised_frame_not_logged :
  let frame := Json (JObj [("foo", JNum 1)]) in
  malformed frame = true /\
  sockets connected !! 0%nat = Some OPEN /\
  out (step (SocketMessage 0%nat frame) connected) = out connected.
Proof. vm_compute. repeat split; reflexivity. Qed.

(** *** Settings changes while connected *)

(** C10: a settings change handled while the phase is 'connected' and the
    new settings still ask for a connection leaves the module variables
    (socket reference, backoff delay, episode clock, auto-reconnect flag),
    the sockets and the store untouched, whatever the new URL is; the only
    call made is the broadcast of settingsChanged. *)
Theorem settings_change_while_connected (s : State) (st : Settings) :
  connectionState (vars s) = JStr "connected" ->
  shouldBeConnected st = true ->
  let s1 := step (SyncStorageChanged st) s in
  let s2 := step (Resume (length (tasks s))) s1 in
  vars s1 = vars s /\ sockets s1 = sockets s /\ out s1 = out s /\
  vars s2 = vars s /\ sockets s2 = sockets s /\ local s2 = local s /\
  tasks s2 = tasks s /\ sync s2 = st /\
  out s2 = out s ++ [Broadcast MsgSettingsChanged].
Proof.
  intros Hc Hsh s1 s2. subst s1 s2.
  destruct s as [[w ic cs cb rd rt rs ar] socks loc sy clk tks o].
  cbn [vars connectionState] in Hc. subst cs.
  cbn [step]. unfold resume. rsimpl.
  rewrite list_lookup_middle by reflexivity.
  rewrite delete_middle. rewrite app_nil_r.
  cbn [run_task]. unfold settings_after_should. rsimpl.
  rewrite Hsh. cbn. repeat split.
Qed.

Lemma settings_change_while_connected_witness :
  let st := {| enabled := true; serverUrl := "ws://elsewhere:9000";
               displayMode := "standard"; position := "bottom-right";
               size := "medium"; graphDuration := 60; siteOverrides := ∅ |} in
  let s2 := step (Resume 0%nat) (step (SyncStorageChanged st) connected) in
  vars s2 = vars connected /\ sockets s2 = sockets connected /\
  out s2 = out connected ++ [Broadcast MsgSettingsChanged].
Proof.
  intros st s2.
  pose proof (settings_change_while_connected connected st
                ltac:(vm_compute; reflexivity) ltac:(vm_compute; reflexivity))
    as (_ & _ & _ & Hv & Hs & _ & _ & _ & Ho).
  split; [exact Hv|]. split; [exact Hs|exact Ho].
Defined.

(** *** Backoff *)








(** *** The retry window *)












(** The connect branch of [handleSettingsChange] switches automatic
    reconnection back on as well. *)
Lemma settings_connect_branch_resets (s : State) :
  shouldBeConnected (sync s) = true ->
  is_str (connectionState (vars s)) "disconnected" = true ->
  reconnectDelay (vars (settings_after_should s)) = 1000 /\
  reconnectStartTime (vars (settings_after_should s)) = None /\
  autoReconnectEnabled (vars (settings_after_should s)) = true.
Proof.
  intros Hsh Hd. unfold settings_after_should. rewrite Hsh, Hd. cbn [negb andb].
  unfold connect.
  match goal with |- context [if ?c then _ else _] => destruct c end;
    repeat split.
Qed.




End ManagerProps.

(** * Further properties of the code *)

(** ** The rolling-window graph: what [draw] can rely on *)

Module GraphExtras.
Import PulseGraph PulseGraphDraw.

Lemma addPoint_cases (g : t) (b : Z) (ts : option Z) (now : Z) :
  (points (addPoint g b ts now) = [] /\
   minBpm (addPoint g b ts now) = minBpm g /\
   maxBpm (addPoint g b ts now) = maxBpm g) \/
  (exists x xs,
      List.map (fun p => clamp (bpm p)) (points (addPoint g b ts now)) = x :: xs /\
      minBpm (addPoint g b ts now) = Z.max 40 (Math_min x xs - 10) /\
      maxBpm (addPoint g b ts now) = Z.min 220 (Math_max x xs + 10)).
Proof.
  rewrite GraphProps.points_addPoint. unfold addPoint.
  destruct (List.map _ (List.filter _ _)) as [|x xs] eqn:E; simpl.
  - left. apply map_eq_nil in E. auto.
  - right. exists x, xs. auto.
Qed.

Lemma addPoint_gap (g : t) (b : Z) (ts : option Z) (now : Z) :
  10 <= maxBpm g - minBpm g ->
  10 <= maxBpm (addPoint g b ts now) - minBpm (addPoint g b ts now).
Proof.
  intros Hg.
  destruct (addPoint_cases g b ts now) as [(_ & -> & ->) | (x & xs & E & -> & ->)];
    [exact Hg|].
  pose proof (GraphProps.clamped_all (points (addPoint g b ts now))) as Hall.
  rewrite E in Hall. inversion Hall as [|? ? Hx Hxs]; subst.
  pose proof (GraphProps.Math_min_range xs x Hx Hxs).
  pose proof (GraphProps.Math_max_range xs x Hx Hxs).
  destruct (GraphProps.Math_min_least xs x) as (_ & ? & _).
  destruct (GraphProps.Math_max_greatest xs x) as (_ & ? & _).
  lia.
Qed.

Lemma feed_gap (ins : list Insert) : forall g : t,
  10 <= maxBpm g - minBpm g ->
  10 <= maxBpm (feed g ins) - minBpm (feed g ins).
Proof.
  unfold feed. induction ins as [|i ins IH]; intros g Hg; simpl; [exact Hg|].
  apply IH. apply addPoint_gap. exact Hg.
Qed.

(** X1: from the constructor on, whatever is inserted, the upper axis bound
    stays at least 10 above the lower one, so the divisor [draw] guards with
    [Math.max(1, ...)] is always the plain difference of the bounds. *)
Theorem draw_divisor_is_axis_range (d : Z) (ins : list Insert) :
  10 <= maxBpm (feed (create d) ins) - minBpm (feed (create d) ins) /\
  bpmRange (feed (create d) ins) =
    maxBpm (feed (create d) ins) - minBpm (feed (create d) ins).
Proof.
  assert (H : 10 <= maxBpm (feed (create d) ins) - minBpm (feed (create d) ins))
    by (apply feed_gap; simpl; lia).
  split; [exact H|]. unfold bpmRange. lia.
Qed.

(** X2: right after an insert, the clamped value of every retained point
    lies between the two axis bounds; a retained value already within
    [40, 220] lies between them as it is. *)
Theorem bounds_enclose_retained (g : t) (b : Z) (ts : option Z) (now : Z) (p : Point) :
  In p (points (addPoint g b ts now)) ->
  minBpm (addPoint g b ts now) <= clamp (bpm p) <= maxBpm (addPoint g b ts now) /\
  (40 <= bpm p <= 220 ->
   minBpm (addPoint g b ts now) <= bpm p <= maxBpm (addPoint g b ts now)).
Proof.
  intros Hin.
  assert (Hc : minBpm (addPoint g b ts now) <= clamp (bpm p)
               <= maxBpm (addPoint g b ts now)).
  { destruct (addPoint_cases g b ts now) as [(E & _) | (x & xs & E & -> & ->)].
    - rewrite E in Hin. destruct Hin.
    - assert (Hm : In (clamp (bpm p)) (x :: xs)).
      { rewrite <- E. apply in_map_iff. exists p. auto. }
      destruct (GraphProps.Math_min_least xs x) as (_ & Hle & Hall).
      destruct (GraphProps.Math_max_greatest xs x) as (_ & Hge & Hall').
      rewrite List.Forall_forall in Hall, Hall'.
      pose proof (GraphProps.clamp_range (bpm p)).
      destruct Hm as [Hm | Hm]; [subst x; lia|].
      specialize (Hall _ Hm). specialize (Hall' _ Hm). lia. }
  split; [exact Hc|]. intros Hr. unfold clamp in Hc. lia.
Qed.

Lemma bounds_enclose_retained_witness :
  minBpm (addPoint (create 60) 72 (Some 1000) 1000) <= 72
  <= maxBpm (addPoint (create 60) 72 (Some 1000) 1000).
Proof.
  exact (proj2 (bounds_enclose_retained (create 60) 72 (Some 1000) 1000
                  {| bpm := 72; timestamp := 1000 |}
                  ltac:(vm_compute; left; reflexivity))
               ltac:(simpl; lia)).
Defined.

(** X3: a sample inserted without a timestamp, or with timestamp 0, is
    stamped with the clock of the insert; the buffer then holds the old
    points that are still inside the window, followed by the new point
    exactly when the window length is positive. *)
Theorem unstamped_sample_retained (g : t) (b : Z) (ts : option Z) (now : Z) :
  ts = None \/ ts = Some 0 ->
  points (addPoint g b ts now) =
    List.filter (fun p => now - duration g * 1000 <? timestamp p) (points g)
    ++ (if 0 <? duration g then [{| bpm := b; timestamp := now |}] else []).
Proof.
  intros Hts. rewrite GraphProps.points_addPoint.
  replace (or_now ts now) with now by (destruct Hts as [-> | ->]; reflexivity).
  rewrite List.filter_app. f_equal. simpl.
  destruct (0 <? duration g) eqn:Ed;
    [apply Z.ltb_lt in Ed | apply Z.ltb_ge in Ed];
    destruct (now - duration g * 1000 <? now) eqn:E; try reflexivity;
    [apply Z.ltb_ge in E | apply Z.ltb_lt in E]; lia.
Qed.

Lemma unstamped_sample_retained_witness :
  points (addPoint (create 60) 72 None 5000) = [{| bpm := 72; timestamp := 5000 |}].
Proof.
  exact (unstamped_sample_retained (create 60) 72 None 5000 (or_introl eq_refl)).
Defined.

Lemma filter_sorted (f : Point -> bool) (l : list Point) :
  ascending l -> ascending (List.filter f l).
Proof.
  unfold ascending. induction 1 as [|p l Hs IH Hall]; simpl; [constructor|].
  destruct (f p); [|exact IH]. constructor; [exact IH|].
  rewrite List.Forall_forall in *. intros q Hq.
  apply filter_In in Hq as [Hq _]. auto.
Qed.

Lemma snoc_sorted (l : list Point) (q : Point) :
  ascending l -> List.Forall (fun p => timestamp p <= timestamp q) l ->
  ascending (l ++ [q]).
Proof.
  unfold ascending. induction 1 as [|p l Hs IH Hall]; intros Hq; simpl.
  - repeat constructor.
  - inversion Hq; subst. constructor; [apply IH; assumption|].
    apply Forall_app. split; [exact Hall|]. constructor; [assumption|constructor].
Qed.

Lemma feed_sorted (ins : list Insert) : forall g : t,
  ascending (points g) ->
  StronglySorted Z.le (List.map stamped ins) ->
  List.Forall (fun p => List.Forall (fun i => timestamp p <= stamped i) ins) (points g) ->
  ascending (points (feed g ins)).
Proof.
  unfold feed. induction ins as [|i ins IH]; intros g Hg Hs Hb; simpl; [exact Hg|].
  inversion Hs as [|? ? Hs' Hi]; subst.
  apply IH; [| exact Hs' |].
  - rewrite GraphProps.points_addPoint. apply filter_sorted. apply snoc_sorted; [exact Hg|].
    eapply List.Forall_impl; [|exact Hb]. simpl. intros p Hp. inversion Hp; assumption.
  - rewrite GraphProps.points_addPoint. apply List.Forall_forall. intros p Hp.
    apply filter_In in Hp as [Hp _]. apply in_app_iff in Hp as [Hp|[<-|[]]].
    + rewrite List.Forall_forall in Hb. specialize (Hb p Hp). inversion Hb; assumption.
    + simpl. rewrite List.Forall_forall. intros j Hj.
      rewrite List.Forall_forall in Hi. apply Hi. apply in_map. exact Hj.
Qed.

(** X4: when samples are inserted with timestamps that never decrease, the
    buffer is ordered by timestamp, ascending, after every insert. *)
Theorem buffer_stays_ascending (d : Z) (ins : list Insert) :
  StronglySorted Z.le (List.map stamped ins) ->
  ascending (points (feed (create d) ins)).
Proof.
  intros Hs. apply feed_sorted; [constructor|exact Hs|constructor].
Qed.

Lemma buffer_stays_ascending_witness :
  ascending (points (feed (create 60) Scenarios.live_inserts)).
Proof.
  apply buffer_stays_ascending.
  unfold Scenarios.live_inserts, stamped. cbn.
  repeat constructor; lia.
Defined.

End GraphExtras.

(** ** The render surface: mounting and listeners *)

Module SurfaceProps.
Import PulseOverlay Surface.

Lemma count_app (k : listener) (l1 l2 : list listener) :
  count k (l1 ++ l2) = (count k l1 + count k l2)%nat.
Proof. unfold count. rewrite List.filter_app, length_app. reflexivity. Qed.

Lemma count_remove_same (k : listener) (reg : list listener) :
  count k (removeListener k reg) = Nat.pred (count k reg).
Proof.
  unfold count. induction reg as [|x reg IH]; simpl; [reflexivity|].
  destruct (listener_eqb k x) eqn:E; simpl; [reflexivity|].
  rewrite E. exact IH.
Qed.

Lemma count_remove_other (k k' : listener) (reg : list listener) :
  listener_eqb k k' = false ->
  count k (removeListener k' reg) = count k reg.
Proof.
  intros Hne. unfold count. induction reg as [|x reg IH]; simpl; [reflexivity|].
  destruct (listener_eqb k' x) eqn:E; simpl.
  - destruct k, k', x; simpl in *; try discriminate; reflexivity.
  - destruct (listener_eqb k x); simpl; rewrite IH; reflexivity.
Qed.

Ltac count_norm :=
  repeat first
    [ rewrite count_remove_same
    | rewrite (count_remove_other StateListener HeartRateListener) by reflexivity
    | rewrite (count_remove_other StateListener SettingsListener) by reflexivity
    | rewrite (count_remove_other HeartRateListener StateListener) by reflexivity
    | rewrite (count_remove_other HeartRateListener SettingsListener) by reflexivity
    | rewrite (count_remove_other SettingsListener StateListener) by reflexivity
    | rewrite (count_remove_other SettingsListener HeartRateListener) by reflexivity ].

Lemma count_all_zero (reg : list listener) :
  count StateListener reg = 0%nat -> count HeartRateListener reg = 0%nat ->
  count SettingsListener reg = 0%nat -> reg = [].
Proof.
  destruct reg as [|[] reg]; unfold count; simpl; intros; try discriminate; reflexivity.
Qed.

Lemma is_mounted_spec (o : PulseOverlay.t) :
  container o <> None <-> is_mounted o = true.
Proof. unfold is_mounted. destruct (container o); split; congruence. Qed.

Lemma updateDisplay_is_mounted (o : PulseOverlay.t) :
  is_mounted (updateDisplay o) = is_mounted o.
Proof.
  unfold updateDisplay, is_mounted. destruct (container o) eqn:E; [|rewrite E; reflexivity].
  destruct (currentBpm o); [destruct (String.eqb _ _)|]; reflexivity.
Qed.

Lemma updateDisplay_settings (o : PulseOverlay.t) :
  settings (updateDisplay o) = settings o.
Proof.
  unfold updateDisplay. destruct (container o); [|reflexivity].
  destruct (currentBpm o); [destruct (String.eqb _ _)|]; reflexivity.
Qed.

Lemma updateDisplay_graph (o : PulseOverlay.t) :
  graph (updateDisplay o) = graph o.
Proof.
  unfold updateDisplay. destruct (container o); [|reflexivity].
  destruct (currentBpm o); [destruct (String.eqb _ _)|]; reflexivity.
Qed.

Lemma handle_is_mounted (o : PulseOverlay.t) (e : PulseOverlay.event) :
  is_mounted (handle o e) = is_mounted o.
Proof.
  destruct e as [st bpm now | st | b ts now]; simpl.
  - unfold seed. destruct bpm; [destruct (graph _)|];
      rewrite updateDisplay_is_mounted; reflexivity.
  - unfold onStateChange. rewrite updateDisplay_is_mounted. reflexivity.
  - unfold onHeartRate. destruct (graph _);
      [change (is_mounted (set_graph ?g ?o)) with (is_mounted o)|];
      rewrite updateDisplay_is_mounted; reflexivity.
Qed.

Lemma removeOverlay_tidy (sf : t) : tidy sf -> tidy (removeOverlay sf).
Proof.
  intros (Hs & Hh & Hset & Heq & Hc). unfold tidy, removeOverlay. simpl.
  destruct (_unsubscribeState sf), (_unsubscribeHR sf); try discriminate;
    count_norm; rewrite ?Hs, ?Hh, ?Hset;
    repeat split; try reflexivity; try discriminate; try congruence. 
Qed.

Lemma removeOverlay_unmounted (sf : t) :
  container (overlay (removeOverlay sf)) = None /\
  _unsubscribeState (removeOverlay sf) = false /\
  _unsubscribeHR (removeOverlay sf) = false.
Proof. repeat split. Qed.

Lemma mount_tidy (sf : t) :
  tidy sf -> container (overlay sf) = None ->
  tidy (setupListeners (set_overlay (createOverlay (overlay sf)) sf)).
Proof.
  intros (Hs & Hh & Hset & Heq & Hc) Hn. unfold tidy. simpl.
  assert (Hf : _unsubscribeState sf = false).
  { destruct (_unsubscribeState sf); [|reflexivity]. exfalso. apply Hc; auto. }
  rewrite Hf in *. rewrite <- Heq in Hh.
  rewrite !count_app, Hs, Hh, Hset. unfold count. simpl.
  repeat split; try reflexivity; try discriminate.
  destruct (_unsubscribeSettings sf); reflexivity.
Qed.

Lemma handleSettingsChange_tidy (old : Settings) (oldOp : Z)
    (new : Settings) (newOp : Z) (sf : t) :
  tidy sf -> tidy (fst (handleSettingsChange old oldOp new newOp sf)).
Proof.
  intros Ht. unfold handleSettingsChange.
  set (sf1 := {| overlay := set_settings new (overlay sf) |}).
  assert (Ht1 : tidy sf1) by exact Ht.
  destruct (negb (shouldShow (overlay sf1))); [apply removeOverlay_tidy; exact Ht1|].
  match goal with
  | |- context [if ?c then removeOverlay sf1 else sf1] => destruct c eqn:Ec
  end.
  - simpl fst. apply (mount_tidy (removeOverlay sf1));
      [apply removeOverlay_tidy; exact Ht1|reflexivity].
  - destruct (container (overlay sf1)) eqn:Econt.
    + simpl fst. destruct Ht1 as (Hs & Hh & Hset & Heq & Hc).
      unfold tidy. simpl. repeat split; try assumption.
      * intros H. apply is_mounted_spec. rewrite updateDisplay_is_mounted.
        apply is_mounted_spec. apply Hc. exact H.
      * intros H. apply Hc. apply is_mounted_spec.
        rewrite <- updateDisplay_is_mounted. apply is_mounted_spec. exact H.
    + simpl fst. apply mount_tidy; assumption.
Qed.

Lemma destroy_tidy (sf : t) : tidy sf -> tidy (destroy sf).
Proof.
  intros Ht. apply removeOverlay_tidy in Ht as (Hs & Hh & Hset & Heq & Hc).
  unfold tidy, destroy. cbn [overlay registered _unsubscribeState _unsubscribeHR
                              _unsubscribeSettings].
  destruct (_unsubscribeSettings (removeOverlay sf)) eqn:E.
  - count_norm. rewrite Hs, Hh, Hset.
    repeat split; assumption || reflexivity || apply Hc.
  - rewrite Hs, Hh, Hset. repeat split; assumption || reflexivity || apply Hc.
Qed.

Lemma apply_tidy (sf : t) (o : op) : tidy sf -> tidy (apply sf o).
Proof.
  intros Ht. destruct o as [old oldOp new newOp | e |]; simpl.
  - apply handleSettingsChange_tidy. exact Ht.
  - match goal with |- tidy (if ?c then _ else _) => destruct c end; [|exact Ht].
    destruct Ht as (Hs & Hh & Hset & Heq & Hc).
    unfold tidy. simpl. repeat split; try assumption.
    + intros H. apply is_mounted_spec. rewrite handle_is_mounted.
      apply is_mounted_spec. apply Hc. exact H.
    + intros H. apply Hc. apply is_mounted_spec.
      rewrite <- (handle_is_mounted _ e). apply is_mounted_spec. exact H.
  - apply destroy_tidy. exact Ht.
Qed.

Lemma init_tidy (host : string) (st : Settings) (opac : Z) :
  tidy (fst (init host st opac)).
Proof.
  unfold init. destruct (negb _); simpl.
  - unfold tidy, count. simpl. repeat split; try reflexivity; try discriminate.
    intros H. exfalso. apply H. reflexivity.
  - unfold tidy, count. simpl. repeat split; try reflexivity; try discriminate.
Qed.

(** X5: through any sequence of settings changes, data events and destroys
    after [init], the surface holds each of its three subscriptions at most
    once and exactly when the matching handle is set, and the two data
    subscriptions exist exactly while the node is mounted; [destroy] leaves
    nothing registered; [removeOverlay] keeps the settings subscription. *)
Theorem listeners_never_leak (host : string) (st : Settings) (opac : Z) (ops : list op) :
  let sf := fold_left apply ops (fst (init host st opac)) in
  tidy sf /\
  registered (destroy sf) = [] /\
  count SettingsListener (registered (removeOverlay sf)) =
    count SettingsListener (registered sf).
Proof.
  intros sf.
  assert (Ht : tidy sf).
  { subst sf. generalize (init_tidy host st opac).
    generalize (fst (init host st opac)).
    induction ops as [|o ops IH]; intros s0 H0; simpl; [exact H0|].
    apply IH. apply apply_tidy. exact H0. }
  split; [exact Ht|]. split.
  - destruct (destroy_tidy sf Ht) as (Hs & Hh & Hset & _).
    apply count_all_zero; [exact Hs| |exact Hset].
    rewrite Hh. reflexivity.
  - unfold removeOverlay. simpl.
    destruct (_unsubscribeState sf), (_unsubscribeHR sf);
      count_norm; reflexivity.
Qed.

(** X6: when [handleSettingsChange] has run on freshly fetched settings,
    the surface holds those settings and is mounted exactly when
    [shouldShow] holds for them, whatever settings the handler captured
    when it was called. *)
Theorem mounted_iff_visible (old : Settings) (oldOp : Z)
    (new : Settings) (newOp : Z) (sf : t) :
  let sf' := fst (handleSettingsChange old oldOp new newOp sf) in
  settings (overlay sf') = new /\
  (container (overlay sf') <> None <->
   shouldShow (set_settings new (overlay sf)) = true).
Proof.
  intros sf'. subst sf'. unfold handleSettingsChange. cbn [overlay].
  destruct (shouldShow (set_settings new (overlay sf))) eqn:Esh; cbn [negb].
  - change (container (set_settings new (overlay sf))) with (container (overlay sf)).
    destruct (container (overlay sf)) as [dom|] eqn:Ec.
    + destruct (layout_changed _ _ _ _).
      * cbn. split; [reflexivity|]. split; [reflexivity|discriminate].
      * cbn [overlay set_settings container]. rewrite Ec.
        cbn [fst overlay set_overlay].
        rewrite updateDisplay_settings. split; [reflexivity|].
        split; [reflexivity|]. intros _. apply is_mounted_spec.
        rewrite updateDisplay_is_mounted. unfold is_mounted. cbn. rewrite Ec.
        reflexivity.
    + cbn [overlay set_settings container]. rewrite Ec.
      cbn. split; [reflexivity|]. split; [reflexivity|discriminate].
  - cbn. split; [reflexivity|].
    split; [intros H; exfalso; apply H; reflexivity|discriminate].
Qed.

(** X7: on a mounted surface that stays visible, a change of display mode,
    position, size, opacity or graph duration between the settings the
    handler captured when it was called and the freshly fetched ones
    rebuilds the node: the value text is back to the placeholder, the
    graph (in graph mode) is a new one with an empty buffer and the new
    duration, the cached value is kept, and the handler goes on to fetch
    the state; without such a change the graph and the subscriptions are
    left as they are.  The comparison is with the captured settings, not
    with the ones the surface holds when the handler resumes. *)
Theorem layout_change_remounts (old : Settings) (oldOp : Z)
    (new : Settings) (newOp : Z) (sf : t) :
  shouldShow (set_settings new (overlay sf)) = true ->
  container (overlay sf) <> None ->
  let r := handleSettingsChange old oldOp new newOp sf in
  if layout_changed old new oldOp newOp then
    snd r = true /\
    graph (overlay (fst r)) =
      (if String.eqb (displayMode new) "graph"
       then Some (PulseGraph.create (graphDuration new)) else None) /\
    displayed (overlay (fst r)) = Some "--" /\
    currentBpm (overlay (fst r)) = currentBpm (overlay sf)
  else
    snd r = false /\
    graph (overlay (fst r)) = graph (overlay sf) /\
    registered (fst r) = registered sf.
Proof.
  intros Hsh Hm r. subst r. unfold handleSettingsChange. cbn [overlay].
  rewrite Hsh. cbn [negb].
  change (container (set_settings new (overlay sf))) with (container (overlay sf)).
  destruct (container (overlay sf)) as [dom|] eqn:Ec; [|congruence].
  destruct (layout_changed _ _ _ _).
  - cbn. repeat split.
  - cbn [overlay set_settings container]. rewrite Ec.
    cbn [fst snd overlay set_overlay registered].
    rewrite updateDisplay_graph. repeat split.
Qed.

(** Two handlers called while the surface held the defaults; the first has
    already put the surface in graph mode when the second resumes with the
    same fetched settings, and the second rebuilds the node once more. *)
Lemma layout_change_remounts_witness :
  let sf := fst (handleSettingsChange_now Scenarios.graph_mode 90
                   (fst (init "example.org" PULSE_DEFAULTS 90))) in
  let r := handleSettingsChange PULSE_DEFAULTS 90 Scenarios.graph_mode 90 sf in
  settings (overlay sf) = Scenarios.graph_mode /\
  snd r = true /\
  graph (overlay (fst r)) = Some (PulseGraph.create 60) /\
  displayed (overlay (fst r)) = Some "--" /\
  currentBpm (overlay (fst r)) = None.
Proof.
  split; [vm_compute; reflexivity|].
  exact (layout_change_remounts PULSE_DEFAULTS 90 Scenarios.graph_mode 90
           (fst (handleSettingsChange_now Scenarios.graph_mode 90
                   (fst (init "example.org" PULSE_DEFAULTS 90))))
           ltac:(vm_compute; reflexivity) ltac:(vm_compute; discriminate)).
Defined.

End SurfaceProps.

(** ** Per-site overrides and installation defaults *)

Module SiteSettingsProps.
Import PulseOverlay SiteSettings.

(** X8: the state the popup shows its site toggle in is the overlay's own
    visibility decision for that host. *)
Theorem popup_toggle_matches_overlay (host : string) (st : Settings) :
  siteToggle_checked host st = shouldShow (create host st).
Proof.
  unfold siteToggle_checked, shouldShow. simpl.
  destruct (siteOverrides st !! host) as [[ | [|] | | | | ]|]; simpl;
    rewrite ?andb_true_r, ?andb_false_r; reflexivity.
Qed.

Lemma assign_bool_ordinary (key : string) (b : bool) (ov : gmap string json) :
  key <> "__proto__" -> assign_bool key b ov = <[key := JBool b]> ov.
Proof.
  intros Hne. unfold assign_bool. apply String.eqb_neq in Hne. rewrite Hne.
  reflexivity.
Qed.

Lemma assign_bool_other (key other : string) (b : bool) (ov : gmap string json) :
  other <> key -> assign_bool key b ov !! other = ov !! other.
Proof.
  intros Hne. unfold assign_bool.
  destruct (String.eqb key "__proto__"); [destruct (ov !! key)|];
    rewrite ?lookup_insert_ne by congruence; reflexivity.
Qed.

Lemma assign_bool_proto (b : bool) (ov : gmap string json) :
  ov !! "__proto__" = None -> assign_bool "__proto__" b ov = ov.
Proof. intros H. unfold assign_bool. simpl. rewrite H. reflexivity. Qed.

(** X9: after the popup's site toggle handler has written the overrides,
    the overlay's visibility on that host, and the toggle itself, equal
    what the user chose, for every host name other than [__proto__]; the
    global switch and the visibility on every other host are unchanged.
    On the host name [__proto__], with no own property of that name
    stored, the handler writes the overrides back as they were. *)
Theorem site_toggle_round_trip (checked : bool) (host : string) (st : Settings) :
  let st' := with_overrides (siteToggle_change checked host st) st in
  (host <> "__proto__" ->
   shouldShow (create host st') = checked /\
   siteToggle_checked host st' = checked) /\
  enabled st' = enabled st /\
  (forall other : string, other <> host ->
     shouldShow (create other st') = shouldShow (create other st)) /\
  (siteOverrides st !! "__proto__" = None ->
   siteToggle_change checked "__proto__" st = siteOverrides st).
Proof.
  intros st'. split; [|split; [|split]].
  - intros Hp.
    assert (H1 : shouldShow (create host st') = checked).
    { subst st'. unfold shouldShow, siteToggle_change. simpl.
      rewrite !assign_bool_ordinary by exact Hp.
      destruct checked; [destruct (enabled st) eqn:E|].
      - rewrite lookup_delete_eq. reflexivity.
      - rewrite lookup_insert_eq. reflexivity.
      - rewrite lookup_insert_eq. reflexivity. }
    split; [exact H1|]. rewrite popup_toggle_matches_overlay. exact H1.
  - reflexivity.
  - intros other Hne. subst st'. unfold shouldShow, siteToggle_change. simpl.
    destruct checked; [destruct (enabled st)|];
      rewrite ?lookup_delete_ne, ?assign_bool_other by congruence; reflexivity.
  - intros Hn. unfold siteToggle_change.
    destruct checked; [destruct (enabled st)|];
      rewrite ?assign_bool_proto by exact Hn; try reflexivity.
    apply map_eq. intros k. destruct (decide (k = "__proto__")) as [->|Hk].
    + rewrite lookup_delete_eq, Hn. reflexivity.
    + rewrite lookup_delete_ne by congruence. reflexivity.
Qed.

Lemma site_toggle_round_trip_witness :
  shouldShow (create "a.com"
                (with_overrides (siteToggle_change false "a.com" Scenarios.only_a_enabled)
                                Scenarios.only_a_enabled)) = false /\
  shouldShow (create "b.com"
                (with_overrides (siteToggle_change false "a.com" Scenarios.only_a_enabled)
                                Scenarios.only_a_enabled)) =
  shouldShow (create "b.com" Scenarios.only_a_enabled) /\
  siteToggle_change false "__proto__" Scenarios.only_a_enabled =
  siteOverrides Scenarios.only_a_enabled.
Proof.
  destruct (site_toggle_round_trip false "a.com" Scenarios.only_a_enabled)
    as (H1 & _ & H3 & _).
  destruct (site_toggle_round_trip false "__proto__" Scenarios.only_a_enabled)
    as (_ & _ & _ & H4).
  split; [exact (proj1 (H1 ltac:(discriminate)))|].
  split; [exact (H3 "b.com" ltac:(discriminate))|].
  exact (H4 ltac:(vm_compute; reflexivity)).
Defined.

Lemma shouldBeConnected_spec (st : Settings) :
  Background.shouldBeConnected st = true <->
  enabled st = true \/ exists k, siteOverrides st !! k = Some (JBool true).
Proof.
  unfold Background.shouldBeConnected. destruct (enabled st); [intuition|].
  rewrite existsb_exists. split.
  - intros (v & Hin & Hv). right.
    apply in_map_iff in Hin as ([k v'] & <- & Hin). simpl in Hv.
    apply list_elem_of_In, elem_of_map_to_list in Hin.
    exists k. destruct v' as [ | [|] | | | | ]; try discriminate. exact Hin.
  - intros [H|(k & Hk)]; [discriminate|].
    exists (JBool true). split; [|reflexivity].
    apply in_map_iff. exists (k, JBool true). split; [reflexivity|].
    apply list_elem_of_In, elem_of_map_to_list. exact Hk.
Qed.

(** X10: the manager wants a connection exactly when the overlay would be
    shown on at least one host. *)
Theorem connection_wanted_iff_visible_somewhere (st : Settings) :
  Background.shouldBeConnected st = true <->
  exists host : string, shouldShow (create host st) = true.
Proof.
  rewrite shouldBeConnected_spec. split.
  - intros [He|(k & Hk)].
    + destruct (exist_fresh (dom (siteOverrides st))) as (host & Hf).
      exists host. unfold shouldShow. simpl.
      apply not_elem_of_dom in Hf. rewrite Hf. simpl. exact He.
    + exists k. unfold shouldShow. simpl. rewrite Hk. reflexivity.
  - intros (host & H). unfold shouldShow in H. simpl in H.
    destruct (siteOverrides st !! host) as [[ | [|] | | | | ]|] eqn:E;
      simpl in H; try discriminate; auto.
    right. exists host. exact E.
Qed.

Lemma connection_wanted_iff_visible_somewhere_witness :
  Background.shouldBeConnected Scenarios.only_a_enabled = true.
Proof.
  apply (proj2 (connection_wanted_iff_visible_somewhere Scenarios.only_a_enabled)).
  exists "a.com". vm_compute. reflexivity.
Defined.

(** X11: adding an override for a non-empty site other than [__proto__]
    on the options page makes the overlay's visibility there equal to the
    chosen state, and an override set to enabled makes the manager want a
    connection; removing the override puts the site back on the global
    switch; other hosts are not affected by either.  Adding an override
    for [__proto__], with no own property of that name stored, stores
    nothing. *)
Theorem options_override_edits (site : string) (state : bool) (st : Settings) :
  site <> "" ->
  let added := with_overrides (addSiteOverride site state (siteOverrides st)) st in
  let removed := with_overrides (removeSiteOverride site (siteOverrides st)) st in
  (site <> "__proto__" ->
   shouldShow (create site added) = state /\
   (state = true -> Background.shouldBeConnected added = true)) /\
  shouldShow (create site removed) = enabled st /\
  (forall other : string, other <> site ->
     shouldShow (create other added) = shouldShow (create other st) /\
     shouldShow (create other removed) = shouldShow (create other st)) /\
  (siteOverrides st !! "__proto__" = None ->
   addSiteOverride "__proto__" state (siteOverrides st) = siteOverrides st).
Proof.
  intros Hne added removed. subst added removed.
  unfold addSiteOverride, removeSiteOverride.
  apply String.eqb_neq in Hne. rewrite Hne.
  split; [|split; [|split]].
  - intros Hp. rewrite assign_bool_ordinary by exact Hp. split.
    + unfold shouldShow. simpl. rewrite lookup_insert_eq. destruct state; reflexivity.
    + intros ->. apply shouldBeConnected_spec. right. exists site.
      simpl. apply lookup_insert_eq.
  - unfold shouldShow. simpl. rewrite lookup_delete_eq. reflexivity.
  - intros other Ho. split.
    + unfold shouldShow. simpl. rewrite assign_bool_other by exact Ho. reflexivity.
    + unfold shouldShow. simpl. rewrite lookup_delete_ne by congruence. reflexivity.
  - intros Hn. simpl. apply assign_bool_proto. exact Hn.
Qed.

Lemma options_override_edits_witness :
  shouldShow (create "a.com"
                (with_overrides (addSiteOverride "a.com" true ∅) Scenarios.all_off)) = true /\
  Background.shouldBeConnected
    (with_overrides (addSiteOverride "a.com" true ∅) Scenarios.all_off) = true /\
  addSiteOverride "__proto__" true ∅ = ∅.
Proof.
  destruct (options_override_edits "a.com" true Scenarios.all_off ltac:(discriminate))
    as (H1 & _ & _ & H4).
  destruct (H1 ltac:(discriminate)) as (Ha & Hb).
  split; [exact Ha|]. split; [exact (Hb eq_refl)|].
  exact (H4 ltac:(vm_compute; reflexivity)).
Defined.

End SiteSettingsProps.

Module InstallProps.
Import Install.

Lemma missing_lookup (defaults current : gmap string json) (k : string) :
  missing defaults current !! k =
  match current !! k with
  | Some _ => None
  | None => defaults !! k
  end.
Proof.
  unfold missing. destruct (current !! k) eqn:E.
  - apply map_lookup_filter_None. right. intros v _. simpl. congruence.
  - destruct (defaults !! k) eqn:Ed.
    + apply map_lookup_filter_Some. split; [exact Ed|exact E].
    + apply map_lookup_filter_None. left. exact Ed.
Qed.

(** X12: after [onInstalled], a key that was stored keeps its stored value
    and a key that was not stored holds its default, if it has one. *)
Theorem onInstalled_fills_only_missing (defaults current : gmap string json) (k : string) :
  onInstalled defaults current !! k =
  match current !! k with
  | Some v => Some v
  | None => defaults !! k
  end.
Proof.
  unfold onInstalled.
  destruct (map_to_list (missing defaults current)) eqn:E.
  - apply map_to_list_empty_iff in E.
    pose proof (missing_lookup defaults current k) as H. rewrite E, lookup_empty in H.
    destruct (current !! k); [reflexivity|exact H].
  - rewrite lookup_union, missing_lookup.
    destruct (current !! k); [reflexivity|]. destruct (defaults !! k); reflexivity.
Qed.

(** X13: running [onInstalled] again changes nothing, and it never changes
    what a read with defaults returns. *)
Theorem onInstalled_idempotent (defaults current : gmap string json) :
  onInstalled defaults (onInstalled defaults current) = onInstalled defaults current /\
  get defaults (onInstalled defaults current) = get defaults current.
Proof.
  split; apply map_eq; intros k.
  - rewrite !onInstalled_fills_only_missing.
    destruct (current !! k); [reflexivity|]. destruct (defaults !! k); reflexivity.
  - unfold get. rewrite !map_lookup_imap.
    destruct (defaults !! k) as [d|] eqn:Ed; simpl; [|reflexivity].
    rewrite onInstalled_fills_only_missing.
    destruct (current !! k); [reflexivity|]. rewrite Ed. reflexivity.
Qed.

End InstallProps.

(** ** The connection manager: invariants and handlers *)

Module ManagerExtras.
Import Background Scenarios Invariants ManagerProps.

#[local] Arguments Z.min : simpl never.
#[local] Arguments Z.ltb : simpl never.
#[local] Arguments Z.mul : simpl never.
#[local] Arguments Z.sub : simpl never.


(** *** Delays stay between 1000 and the cap *)

Ltac crush_delay :=
  unfold delay_view; simpl; rewrite ?timeouts_app; simpl;
  rewrite ?app_nil_r; try reflexivity.

Ltac close_delays :=
  split; [|split];
  [ first [assumption
          | unfold delay_in_range, RECONNECT_MAX_DELAY in *; lia]
  | first [assumption | intros ? ?; discriminate]
  | assumption ].

Lemma connect_delay_view (o : origin) (s : State) :
  delay_view (connect o s) = delay_view s.
Proof.
  unfold connect. destruct (_ || _); [reflexivity|]. crush_delay.
Qed.

Lemma onmessage_delay_view (p : payload) (s s' : State) :
  onmessage p s = Normal s' -> delay_view s' = delay_view s.
Proof.
  unfold onmessage, onmessage_try.
  destruct p as [|data]; simpl.
  - intros [= <-]. crush_delay.
  - destruct (get_prop data "status") as [status|] eqn:Es; simpl.
    + destruct (truthy status).
      * destruct (get_prop data "device"); simpl; intros [= <-]; crush_delay.
      * destruct (get_prop data "bpm") as [[b|]|]; simpl.
        -- destruct (get_prop data "timestamp"); simpl;
             intros [= <-]; crush_delay.
        -- intros [= <-]; reflexivity.
        -- intros [= <-]; crush_delay.
    + intros [= <-]. crush_delay.
Qed.

Lemma delays_in_range_view (s s' : State) :
  delay_view s' = delay_view s -> delays_in_range s -> delays_in_range s'.
Proof.
  unfold delay_view, delays_in_range. intros [= -> -> ->]. tauto.
Qed.

Lemma scheduleReconnect_delays (s : State) :
  delays_in_range s -> delays_in_range (scheduleReconnect s).
Proof.
  intros H. unfold scheduleReconnect.
  destruct (negb _); [exact H|]. destruct H as (Hd & Ht & Ho).
  destruct (_ <? _).
  - unfold delays_in_range. simpl. rewrite timeouts_app. simpl. rewrite app_nil_r.
    split; [exact Hd|]. split; [exact Ht|exact Ho].
  - destruct (reconnectTimer (vars s)) eqn:E; unfold delays_in_range; simpl;
      rewrite E; simpl; rewrite !timeouts_app; simpl; rewrite ?app_nil_r;
      (split; [exact Hd|]); (split; [intros d [= <-]; exact Hd|]);
      (apply Forall_app; split; [exact Ho|constructor; [exact Hd|constructor]]).
Qed.

Lemma disconnect_delays (s : State) :
  delays_in_range s -> delays_in_range (disconnect s).
Proof.
  intros (Hd & Ht & Ho). unfold disconnect, delays_in_range.
  destruct (reconnectTimer (vars s)) eqn:E; simpl;
    destruct (ws (vars s)); simpl; rewrite ?E; simpl;
    rewrite ?timeouts_app; simpl; rewrite ?app_nil_r; close_delays.
Qed.

Lemma reset_delays (s : State) :
  delays_in_range s ->
  delays_in_range (set_autoReconnectEnabled true
                     (set_reconnectStartTime None (set_reconnectDelay 1000 s))).
Proof.
  intros (Hd & Ht & Ho). unfold delays_in_range. simpl. close_delays.
Qed.

Lemma run_task_delays (c : bool) (t : task) (s : State) :
  delays_in_range s -> delays_in_range (run_task c t s).
Proof.
  intros H. destruct t; simpl.
  - destruct (shouldBeConnected _); eapply delays_in_range_view; try exact H; crush_delay.
  - eapply delays_in_range_view; try exact H; crush_delay.
  - destruct c; eapply delays_in_range_view; try exact H; crush_delay.
  - apply scheduleReconnect_delays. eapply delays_in_range_view; try exact H; crush_delay.
  - eapply delays_in_range_view; try exact H; crush_delay.
  - unfold timer_after_should. destruct (_ && _); [|exact H].
    pose proof (connect_delay_view FromTimer s) as Hv.
    apply (delays_in_range_view s) in Hv; [|exact H].
    destruct Hv as (Hd & Ht & Ho).
    unfold delays_in_range. simpl. close_delays.
  - unfold settings_after_should.
    destruct (_ && _).
    + eapply delays_in_range_view; [|apply disconnect_delays; exact H]. crush_delay.
    + destruct (_ && _).
      * eapply delays_in_range_view; [apply connect_delay_view|].
        apply reset_delays. exact H.
      * eapply delays_in_range_view; try exact H; crush_delay.
  - eapply delays_in_range_view; [apply connect_delay_view|exact H].
Qed.

Lemma step_delays (e : event) (s : State) :
  delays_in_range s -> delays_in_range (step e s).
Proof.
  intros H. destruct e; simpl.
  - exact H.
  - unfold resume. destruct (tasks s !! k); [|exact H].
    apply run_task_delays. exact H.
  - unfold resume. destruct (tasks s !! k); [|exact H].
    apply run_task_delays. exact H.
  - destruct (sockets s !! i) as [[]|]; try exact H.
    destruct H as (Hd & Ht & Ho).
    unfold onopen, delays_in_range. simpl.
    rewrite timeouts_app. simpl. rewrite app_nil_r. close_delays.
  - destruct (sockets s !! i) as [[]|]; try exact H.
    destruct (onmessage p s) eqn:E; [|exact H].
    eapply delays_in_range_view; [eapply onmessage_delay_view; exact E|exact H].
  - destruct (sockets s !! i) as [[]|]; try exact H;
      (eapply delays_in_range_view; [|exact H]; crush_delay).
  - destruct (sockets s !! i) as [[]|]; try exact H;
      unfold onclose; apply scheduleReconnect_delays;
      (eapply delays_in_range_view; [|exact H]; crush_delay).
  - destruct (reconnectTimer (vars s)) eqn:E; [|exact H].
    destruct H as (Hd & Ht & Ho). unfold delays_in_range. simpl. close_delays.
  - unfold onAlarm. destruct (_ && _); [|exact H].
    eapply delays_in_range_view; [apply connect_delay_view|exact H].
  - eapply delays_in_range_view; [|exact H]. crush_delay.
  - exact H.
  - unfold onReconnectMessage.
    eapply delays_in_range_view; [apply connect_delay_view|].
    apply reset_delays. apply disconnect_delays. exact H.
  - exact H.
  - exact H.
  - destruct (sockets s !! i) as [[]|]; exact H.
Qed.

(** X14: in every state the worker can reach from start-up, the backoff
    delay, the delay of the pending timer and every delay ever handed to
    [setTimeout] lie between 1000 and 30000. *)
Theorem timer_delays_bounded (st : Settings) (stored : gmap string json) (tr : list event) :
  delays_in_range (run tr (boot st stored)).
Proof.
  assert (H0 : delays_in_range (boot st stored)).
  { unfold boot, connect, delays_in_range. simpl.
    split; [unfold delay_in_range, RECONNECT_MAX_DELAY; lia|].
    split; [intros ? ?; discriminate|constructor]. }
  revert H0. generalize (boot st stored).
  induction tr as [|e tr IH]; intros s Hs; [exact Hs|].
  rewrite run_cons. apply IH. apply step_delays. exact Hs.
Qed.



(** *** [ws] always names a socket that exists *)

(** The socket list and the reference into it. *)
Lemma connect_sockets (o : origin) (s : State) :
  sockets (connect o s) = sockets s /\ ws (vars (connect o s)) = ws (vars s) /\
  sync (connect o s) = sync s.
Proof. unfold connect. destruct (_ || _); repeat split. Qed.

Lemma scheduleReconnect_sockets (s : State) :
  sockets (scheduleReconnect s) = sockets s /\
  ws (vars (scheduleReconnect s)) = ws (vars s) /\
  sync (scheduleReconnect s) = sync s /\
  tasks (scheduleReconnect s) = tasks s.
Proof.
  unfold scheduleReconnect. destruct (negb _); [repeat split|].
  destruct (_ <? _); [repeat split|].
  destruct (reconnectTimer _); repeat split.
Qed.

Lemma close_socket_length (i : nat) (socks : list ReadyState) :
  length (close_socket i socks) = length socks.
Proof.
  unfold close_socket. destruct (socks !! i) as [[]|]; rewrite ?length_insert; reflexivity.
Qed.

Lemma disconnect_sockets (s : State) :
  length (sockets (disconnect s)) = length (sockets s) /\
  ws (vars (disconnect s)) = None /\
  sync (disconnect s) = sync s /\ tasks (disconnect s) = tasks s.
Proof.
  unfold disconnect.
  destruct s as [[w ic cs cb rd rt rs ar] socks loc sy clk tks o].
  destruct rt, w; cbn -[close_socket]; repeat split; apply close_socket_length.
Qed.

Lemma onmessage_sockets (p : payload) (s s' : State) :
  onmessage p s = Normal s' ->
  sockets s' = sockets s /\ ws (vars s') = ws (vars s) /\ sync s' = sync s /\
  exists extra, tasks s' = tasks s ++ extra /\
                List.Forall (fun t => past_check t = false) extra.
Proof.
  unfold onmessage, onmessage_try.
  destruct p as [|data]; simpl.
  - intros [= <-]. repeat split. exists []. rewrite app_nil_r. split; [reflexivity|constructor].
  - destruct (get_prop data "status") as [status|] eqn:Es; simpl.
    + destruct (truthy status).
      * destruct (get_prop data "device"); simpl; intros [= <-]; repeat split;
          [eexists; split; [reflexivity|repeat constructor]
          |exists []; rewrite app_nil_r; split; [reflexivity|constructor]].
      * destruct (get_prop data "bpm") as [[b|]|]; simpl.
        -- destruct (get_prop data "timestamp"); simpl; intros [= <-]; repeat split;
             [eexists; split; [reflexivity|repeat constructor]
             |exists []; rewrite app_nil_r; split; [reflexivity|constructor]].
        -- intros [= <-]; repeat split.
           exists []; rewrite app_nil_r; split; [reflexivity|constructor].
        -- intros [= <-]; repeat split.
           exists []; rewrite app_nil_r; split; [reflexivity|constructor].
    + intros [= <-]. repeat split.
      exists []; rewrite app_nil_r; split; [reflexivity|constructor].
Qed.







(** *** Nothing connects while the settings ask for no connection *)

Lemma switched_off_same (s s' : State) (extra : list task) :
  sync s' = sync s -> tasks s' = tasks s ++ extra ->
  List.Forall (fun t => past_check t = false) extra ->
  switched_off s -> switched_off s'.
Proof.
  unfold switched_off. intros -> -> He (Hsh & Ht). split; [exact Hsh|].
  apply Forall_app. split; assumption.
Qed.

Lemma connect_tasks (o : origin) (s : State) :
  exists extra, tasks (connect o s) = tasks s ++ extra /\
                List.Forall (fun t => past_check t = false) extra.
Proof.
  unfold connect. destruct (_ || _).
  - exists []. rewrite app_nil_r. split; [reflexivity|constructor].
  - eexists. split; [reflexivity|repeat constructor].
Qed.

Lemma run_task_switched_off (c : bool) (t : task) (s : State) :
  past_check t = false -> switched_off s ->
  switched_off (run_task c t s) /\ sockets (run_task c t s) = sockets s \/
  switched_off (run_task c t s) /\
    length (sockets (run_task c t s)) = length (sockets s).
Proof.
  intros Hp Hoff. pose proof Hoff as (Hsh & Ht).
  destruct t; simpl in *; try discriminate.
  - rewrite Hsh. left. split; [|reflexivity]. exact Hoff.
  - left. split.
    + match goal with |- switched_off (scheduleReconnect ?x) =>
        destruct (scheduleReconnect_sockets x) as (_ & _ & Hsy & Htk) end.
      apply (switched_off_same s _ []); [exact Hsy|rewrite Htk, app_nil_r; reflexivity
                                         |constructor|exact Hoff].
    + match goal with |- sockets (scheduleReconnect ?x) = _ =>
        destruct (scheduleReconnect_sockets x) as (Hs & _) end. exact Hs.
  - left. split; [exact Hoff|reflexivity].
  - unfold timer_after_should. rewrite Hsh. left. split; [exact Hoff|reflexivity].
  - unfold settings_after_should. rewrite Hsh. cbn [negb andb].
    destruct (negb _).
    + right. destruct (disconnect_sockets s) as (Hl & _ & Hsy & Htk). split.
      * apply (switched_off_same s _ []); [exact Hsy|rewrite app_nil_r; exact Htk
                                           |constructor|exact Hoff].
      * exact Hl.
    + left. split; [exact Hoff|reflexivity].
  - destruct (connect_sockets FromInstalled s) as (Hs & _ & Hsy).
    destruct (connect_tasks FromInstalled s) as (extra & Htk & He).
    left. split; [|exact Hs].
    apply (switched_off_same s _ extra); assumption.
Qed.

Lemma onclose_switched_off (s : State) :
  switched_off s -> switched_off (onclose s) /\ sockets (onclose s) = sockets s.
Proof.
  intros Hoff. unfold onclose.
  match goal with |- switched_off (scheduleReconnect ?x) /\ _ =>
    destruct (scheduleReconnect_sockets x) as (Hs & _ & Hsy & Htk) end.
  split; [|rewrite Hs; reflexivity].
  apply (switched_off_same s _
           [AwaitBroadcast (MsgStatus (JStr "disconnected") JNull)]);
    [rewrite Hsy; reflexivity|rewrite Htk; reflexivity|repeat constructor|exact Hoff].
Qed.

Lemma step_switched_off (e : event) (s : State) :
  keeps_off e = true -> switched_off s ->
  switched_off (step e s) /\ length (sockets (step e s)) = length (sockets s).
Proof.
  intros Hk Hoff. pose proof Hoff as (Hsh & Ht).
  assert (Hres : forall c k,
             switched_off (resume c k s) /\
             length (sockets (resume c k s)) = length (sockets s)).
  { intros c k. unfold resume. destruct (tasks s !! k) as [t|] eqn:Et; [|tauto].
    assert (Hp : past_check t = false)
      by exact (Forall_lookup_1 _ _ _ _ Ht Et).
    assert (Hoff' : switched_off (set_tasks (delete k (tasks s)) s)).
    { split; [exact Hsh|]. simpl. apply Forall_delete. exact Ht. }
    destruct (run_task_switched_off c t _ Hp Hoff') as [(H1 & H2)|(H1 & H2)];
      split; try exact H1; rewrite H2; reflexivity. }
  destruct e; simpl in Hk |- *; try (split; [exact Hoff|reflexivity]).
  - apply Hres.
  - apply Hres.
  - destruct (sockets s !! i) as [[]|]; try (split; [exact Hoff|reflexivity]).
    split; [|simpl; apply length_insert].
    apply (switched_off_same s _ [AwaitBroadcast (MsgStatus (JStr "connected") JNull)]);
      [reflexivity|reflexivity|repeat constructor|exact Hoff].
  - destruct (sockets s !! i) as [[]|]; try (split; [exact Hoff|reflexivity]).
    destruct (onmessage p s) eqn:E; [|split; [exact Hoff|reflexivity]].
    destruct (onmessage_sockets _ _ _ E) as (Hs & _ & Hsy & extra & Htk & He).
    split; [|rewrite Hs; reflexivity].
    apply (switched_off_same s _ extra); assumption.
  - destruct (sockets s !! i) as [[]|]; split; try exact Hoff; reflexivity.
  - destruct (sockets s !! i) as [[]|]; try (split; [exact Hoff|reflexivity]);
      (destruct (onclose_switched_off (set_sockets (<[i := CLOSED]> (sockets s)) s) Hoff)
         as (H1 & H2); split; [exact H1|rewrite H2; simpl; apply length_insert]).
  - destruct (reconnectTimer (vars s)); [|split; [exact Hoff|reflexivity]].
    split; [|reflexivity].
    apply (switched_off_same s _ [TimerAwaitShould]);
      [reflexivity|reflexivity|repeat constructor|exact Hoff].
  - unfold onAlarm. destruct (_ && _); [|split; [exact Hoff|reflexivity]].
    destruct (connect_sockets FromAlarm s) as (Hs & _ & Hsy).
    destruct (connect_tasks FromAlarm s) as (extra & Htk & He).
    split; [|rewrite Hs; reflexivity].
    apply (switched_off_same s _ extra); assumption.
  - split; [|reflexivity].
    apply (switched_off_same s _ [SettingsAwaitShould]);
      [reflexivity|reflexivity|repeat constructor|exact Hoff].
  - unfold onReconnectMessage.
    match goal with |- switched_off (connect _ ?x) /\ _ =>
      destruct (connect_sockets FromReconnect x) as (Hs & _ & Hsy);
      destruct (connect_tasks FromReconnect x) as (extra & Htk & He) end.
    destruct (disconnect_sockets s) as (Hl & _ & Hsy' & Htk').
    split; [|rewrite Hs; exact Hl].
    apply (switched_off_same s _ extra);
      [rewrite Hsy; exact Hsy'|rewrite Htk; f_equal; exact Htk'|exact He|exact Hoff].
  - apply negb_true_iff in Hk. split; [|reflexivity].
    split; [exact Hk|]. simpl. apply Forall_app. split; [exact Ht|repeat constructor].
  - split; [|reflexivity].
    apply (switched_off_same s _ [InstalledAwaitStorage]);
      [reflexivity|reflexivity|repeat constructor|exact Hoff].
  - destruct (sockets s !! i) as [[]|]; try (split; [exact Hoff|reflexivity]).
    split; [exact Hoff|simpl; apply length_insert].
Qed.

(** X16: while the settings ask for no connection, and no [connect] was
    already past its check when they started to, no event sequence that
    keeps the settings that way creates a socket. *)
Theorem no_socket_while_switched_off (s : State) (tr : list event) :
  switched_off s -> forallb keeps_off tr = true ->
  length (sockets (run tr s)) = length (sockets s) /\ switched_off (run tr s).
Proof.
  revert s. induction tr as [|e tr IH]; intros s Hoff Hk; [split; [reflexivity|exact Hoff]|].
  cbn [forallb] in Hk. apply andb_true_iff in Hk as [He Hk].
  destruct (step_switched_off e s He Hoff) as (Hoff' & Hl).
  rewrite run_cons. destruct (IH _ Hoff' Hk) as (Hl' & Hoff'').
  split; [rewrite Hl', Hl; reflexivity|exact Hoff''].
Qed.

Lemma no_socket_while_switched_off_witness :
  sockets (run [Resume 0%nat; Alarm; Resume 0%nat; Installed; Resume 0%nat;
                ReconnectMessage; Resume 0%nat; SettingsChangedMessage; Resume 0%nat]
               (boot all_off ∅)) = [].
Proof.
  destruct (no_socket_while_switched_off (boot all_off ∅)
              [Resume 0%nat; Alarm; Resume 0%nat; Installed; Resume 0%nat;
               ReconnectMessage; Resume 0%nat; SettingsChangedMessage; Resume 0%nat]
              ltac:(split; [vm_compute; reflexivity|repeat constructor])
              ltac:(vm_compute; reflexivity)) as (H & _).
  apply length_zero_iff_nil. exact H.
Defined.



Lemma close_socket_live (i : nat) (socks : list ReadyState) (r : ReadyState) :
  socks !! i = Some r -> is_live r = true -> close_socket i socks !! i = Some CLOSING.
Proof.
  intros Hr Hl. unfold close_socket. rewrite Hr.
  destruct r; try discriminate; apply list_lookup_insert_eq;
    eapply lookup_lt_Some; exact Hr.
Qed.

(** X17: a manual reconnect request, in any state, drops the current
    socket (starting its close if it was open or connecting), cancels the
    pending timer, sets the phase to 'disconnected' and the value to null
    without writing the store, and always gets a new [connect] past the
    guard. *)
Theorem manual_reconnect_always_restarts (s : State) :
  let s' := step ReconnectMessage s in
  isConnecting (vars s') = true /\
  ws (vars s') = None /\
  reconnectTimer (vars s') = None /\
  connectionState (vars s') = JStr "disconnected" /\
  currentBpm (vars s') = JNull /\
  tasks s' = tasks s ++ [ConnectAwaitShould] /\
  local s' = local s /\
  (exists pre, out s' = pre ++ [ConnectProceeds FromReconnect]) /\
  (forall i r, ws (vars s) = Some i -> sockets s !! i = Some r ->
               is_live r = true -> sockets s' !! i = Some CLOSING).
Proof.
  intros s'. subst s'. cbn [step]. unfold onReconnectMessage, connect, disconnect.
  destruct s as [[w ic cs cb rd rt rs ar] socks loc sy clk tks o].
  destruct rt, w; cbn -[close_socket]; repeat split; eauto;
    try (intros i r [= <-] Hr Hl; eapply close_socket_live; eassumption);
    try (intros; discriminate).
Qed.

Lemma manual_reconnect_always_restarts_witness :
  sockets (step ReconnectMessage connected) !! 0%nat = Some CLOSING.
Proof.
  destruct (manual_reconnect_always_restarts connected)
    as (_ & _ & _ & _ & _ & _ & _ & _ & H).
  exact (H 0%nat OPEN eq_refl eq_refl eq_refl).
Defined.

(** X18: when a settings change is handled while a socket is open and the
    settings no longer ask for a connection, the socket starts closing at
    once, [ws] and the timer are cleared, the phase is 'disconnected' and
    settingsChanged is broadcast, but the store is not written; it reads
    'disconnected' once the close event of that socket has been handled. *)
Theorem settings_off_tears_down (s : State) (k i : nat) :
  tasks s !! k = Some SettingsAwaitShould ->
  shouldBeConnected (sync s) = false ->
  is_str (connectionState (vars s)) "disconnected" = false ->
  ws (vars s) = Some i -> sockets s !! i = Some OPEN ->
  let s1 := step (Resume k) s in
  let s2 := step (SocketClose i) s1 in
  ws (vars s1) = None /\
  sockets s1 !! i = Some CLOSING /\
  connectionState (vars s1) = JStr "disconnected" /\
  currentBpm (vars s1) = JNull /\
  reconnectTimer (vars s1) = None /\
  local s1 = local s /\
  (exists pre, out s1 = pre ++ [Broadcast MsgSettingsChanged]) /\
  sockets s2 !! i = Some CLOSED /\
  PulseState.connectionState (PulseState.getState (local s2)) = JStr "disconnected".
Proof.
  intros Ht Hsh Hd Hw Hi s1 s2.
  assert (Hlt : (i < length (sockets s))%nat) by (eapply lookup_lt_Some; exact Hi).
  assert (E1 : s1 = emit (Broadcast MsgSettingsChanged)
                      (disconnect (set_tasks (delete k (tasks s)) s))).
  { subst s1. cbn [step]. unfold resume. rewrite Ht. cbn [run_task].
    unfold settings_after_should. cbn [sync vars set_tasks]. rewrite Hsh, Hd. reflexivity. }
  assert (Hs1 : sockets s1 = <[i := CLOSING]> (sockets s) /\
                ws (vars s1) = None /\
                connectionState (vars s1) = JStr "disconnected" /\
                currentBpm (vars s1) = JNull /\
                reconnectTimer (vars s1) = None /\
                local s1 = local s /\
                (exists pre, out s1 = pre ++ [Broadcast MsgSettingsChanged])).
  { rewrite E1. unfold disconnect, close_socket.
    destruct s as [[w ic cs cb rd rt rs ar] socks loc sy clk tks o].
    cbn in Hw, Hi. subst w.
    destruct rt; cbn; rewrite Hi; repeat split; eauto. }
  clear E1. clearbody s1.
  destruct Hs1 as (Hsock & Hws & Hcs & Hcb & Hrt & Hloc & Hout).
  assert (Hi1 : sockets s1 !! i = Some CLOSING)
    by (rewrite Hsock; apply list_lookup_insert_eq; exact Hlt).
  repeat split; try assumption.
  - subst s2. cbn [step]. rewrite Hi1. unfold onclose.
    match goal with |- sockets (scheduleReconnect ?x) !! _ = _ =>
      unfold scheduleReconnect;
      destruct (negb _); [|destruct (_ <? _); [|destruct (reconnectTimer _)]]
    end; cbn; apply list_lookup_insert_eq; rewrite Hsock, length_insert; exact Hlt.
  - subst s2. cbn [step]. rewrite Hi1. unfold onclose.
    match goal with |- context [scheduleReconnect ?x] =>
      unfold scheduleReconnect;
      destruct (negb _); [|destruct (_ <? _); [|destruct (reconnectTimer _)]]
    end; cbn; unfold PulseState.getState, js_or; cbn;
      rewrite lookup_insert_eq; reflexivity.
Qed.

Lemma settings_off_tears_down_witness :
  let s1 := step (Resume 0%nat) (step (SyncStorageChanged all_off) connected) in
  sockets s1 !! 0%nat = Some CLOSING /\
  local s1 = local (step (SyncStorageChanged all_off) connected) /\
  PulseState.connectionState
    (PulseState.getState (local (step (SocketClose 0%nat) s1))) = JStr "disconnected".
Proof.
  destruct (settings_off_tears_down (step (SyncStorageChanged all_off) connected)
              0%nat 0%nat eq_refl ltac:(vm_compute; reflexivity)
              eq_refl eq_refl eq_refl)
    as (_ & H2 & _ & _ & _ & H6 & _ & _ & H9).
  split; [exact H2|]. split; [exact H6|exact H9].
Defined.

(** X19: a frame whose status is truthy sets the phase to that status,
    stores status and device (null when the frame has none), reads back
    from the store unchanged, and queues the status broadcast; a bpm in the
    same frame is ignored. *)
Theorem status_frame_sets_phase
    (s : State) (i : nat) (fields : list (string * json)) (st : json) :
  sockets s !! i = Some OPEN -> status_of fields = Some st ->
  let s' := step (SocketMessage i (Json (JObj fields))) s in
  let dev := default JNull (assoc "device" fields) in
  connectionState (vars s') = st /\
  currentBpm (vars s') = currentBpm (vars s) /\
  local s' !! "currentBpm" = local s !! "currentBpm" /\
  local s' !! "connectedDevice" = Some dev /\
  PulseState.connectionState (PulseState.getState (local s')) = st /\
  tasks s' = tasks s ++ [AwaitBroadcast (MsgStatus st dev)] /\
  sockets s' = sockets s /\ out s' = out s.
Proof.
  intros Hi Hst s' dev. subst s' dev. cbn [step]. rewrite Hi.
  unfold status_of in Hst.
  destruct (truthy (assoc "status" fields)) eqn:Et; [|discriminate].
  unfold onmessage, onmessage_try. cbn [JSON_parse bind get_prop].
  rewrite Et, Hst. cbn [js_or]. rewrite <- Hst, Et.
  cbn -[insert]. unfold PulseState.getState, js_or. cbn -[insert lookup].
  rewrite lookup_insert_eq, <- Hst, Et.
  rewrite !lookup_insert_ne by discriminate.
  rewrite lookup_insert_eq.
  repeat split.
Qed.

Lemma status_frame_sets_phase_witness :
  let s' := step (SocketMessage 0%nat
                    (Json (JObj [("status", JStr "scanning"); ("bpm", JNum 72)])))
                 connected in
  connectionState (vars s') = JStr "scanning" /\
  currentBpm (vars s') = JNull /\
  local s' !! "connectedDevice" = Some JNull.
Proof.
  destruct (status_frame_sets_phase connected 0%nat
              [("status", JStr "scanning"); ("bpm", JNum 72)] (JStr "scanning")
              eq_refl eq_refl) as (H1 & H2 & _ & H4 & _).
  split; [exact H1|]. split; [exact H2|exact H4].
Defined.

(** X20: a frame without a truthy status but with a bpm leaves the phase
    and the stored phase alone, keeps and stores the bpm, reads it back
    unchanged when it is truthy, and queues the sample broadcast with the
    frame's timestamp. *)
Theorem sample_frame_keeps_phase
    (s : State) (i : nat) (fields : list (string * json)) (b : json) :
  sockets s !! i = Some OPEN -> sample_of fields = Some b ->
  let s' := step (SocketMessage i (Json (JObj fields))) s in
  connectionState (vars s') = connectionState (vars s) /\
  local s' !! "connectionState" = local s !! "connectionState" /\
  currentBpm (vars s') = b /\
  local s' !! "currentBpm" = Some b /\
  (truthy (Some b) = true ->
   PulseState.currentBpm (PulseState.getState (local s')) = b) /\
  tasks s' = tasks s ++ [AwaitBroadcast (MsgHr b (assoc "timestamp" fields))] /\
  sockets s' = sockets s /\ out s' = out s.
Proof.
  intros Hi Hb s'. subst s'. cbn [step]. rewrite Hi.
  unfold sample_of in Hb.
  destruct (truthy (assoc "status" fields)) eqn:Et; [discriminate|].
  unfold onmessage, onmessage_try. cbn [JSON_parse bind get_prop].
  rewrite Et, Hb. cbn -[insert PulseState.getState].
  rewrite lookup_insert_eq, lookup_insert_ne by discriminate.
  repeat split.
  intros Htr. apply StateStoreProps.getState_truthy; [apply lookup_insert_eq|exact Htr].
Qed.

Lemma sample_frame_keeps_phase_witness :
  let s' := step (SocketMessage 0%nat
                    (Json (JObj [("bpm", JNum 72); ("timestamp", JNum 1700000000000)])))
                 connected in
  connectionState (vars s') = JStr "connected" /\
  PulseState.currentBpm (PulseState.getState (local s')) = JNum 72.
Proof.
  destruct (sample_frame_keeps_phase connected 0%nat
              [("bpm", JNum 72); ("timestamp", JNum 1700000000000)] (JNum 72)
              eq_refl eq_refl) as (H1 & _ & _ & _ & H5 & _).
  split; [exact H1|exact (H5 eq_refl)].
Defined.

(** X21: when [new WebSocket] throws, no socket is created, the in-flight
    flag is cleared, phase and store say 'disconnected', and, inside the
    retry window with automatic reconnection on, the backoff timer is armed
    with the current delay, as after a failed connection. *)
Theorem invalid_url_takes_retry_path (s : State) (k : nat) (url : string) :
  tasks s !! k = Some (ConnectAwaitConnecting url) ->
  autoReconnectEnabled (vars s) = true ->
  in_window (reconnectStartTime (vars s)) (clock s) ->
  let s1 := step (ResumeCtorThrows k) s in
  let s2 := step (Resume (length (tasks s) - 1)) s1 in
  sockets s2 = sockets s /\
  ws (vars s2) = ws (vars s) /\
  isConnecting (vars s2) = false /\
  connectionState (vars s2) = JStr "disconnected" /\
  PulseState.connectionState (PulseState.getState (local s2)) = JStr "disconnected" /\
  reconnectTimer (vars s2) = Some (reconnectDelay (vars s)) /\
  reconnectDelay (vars s2) = reconnectDelay (vars s) /\
  tasks s2 = delete k (tasks s).
Proof.
  intros Ht Har Hwin s1 s2. subst s1 s2.
  assert (Hlen : length (delete k (tasks s)) = (length (tasks s) - 1)%nat)
    by (apply length_delete; eauto).
  destruct s as [[w ic cs cb rd rt rs ar] socks loc sy clk tks o].
  cbn [vars tasks clock autoReconnectEnabled reconnectStartTime] in *. subst ar.
  assert (Hw : (RECONNECT_TIMEOUT <? clk - default clk rs) = false).
  { apply Z.ltb_ge. destruct rs; simpl in *; unfold RECONNECT_TIMEOUT in *; lia. }
  match goal with
  | |- context [step (Resume ?n) (step (ResumeCtorThrows k) ?s0)] =>
      eassert (E : step (Resume n) (step (ResumeCtorThrows k) s0) = _)
  end.
  { cbn [step]. unfold resume at 2. rsimpl. rewrite Ht. rsimpl.
    unfold resume. rsimpl. rewrite <- Hlen.
    rewrite list_lookup_middle by reflexivity. rewrite delete_middle, app_nil_r.
    rsimpl. unfold scheduleReconnect. rsimpl.
    replace (match rs with Some t0 => t0 | None => clk end) with (default clk rs)
      by (destruct rs; reflexivity).
    rewrite Hw. reflexivity. }
  rewrite E. clear E. unfold PulseState.getState, js_or.
  destruct rt; rsimpl; cbn -[insert lookup]; rewrite lookup_insert_eq; repeat split.
Qed.

Lemma invalid_url_takes_retry_path_witness :
  let s := run [Resume 0%nat; Resume 0%nat] (boot PULSE_DEFAULTS ∅) in
  let s2 := step (Resume 0%nat) (step (ResumeCtorThrows 0%nat) s) in
  sockets s2 = [] /\ isConnecting (vars s2) = false /\
  reconnectTimer (vars s2) = Some 1000.
Proof.
  destruct (invalid_url_takes_retry_path
              (run [Resume 0%nat; Resume 0%nat] (boot PULSE_DEFAULTS ∅))
              0%nat "ws://localhost:8765" eq_refl eq_refl I)
    as (H1 & _ & H3 & _ & _ & H6 & _).
  split; [exact H1|]. split; [exact H3|exact H6].
Defined.

(** X22: the keepAlive alarm changes nothing when automatic reconnection
    is off, when a connect is in flight, or when the current socket is open
    or connecting. *)
Theorem alarm_respects_guard (s : State) :
  autoReconnectEnabled (vars s) = false \/ isConnecting (vars s) = true \/
  ws_open_or_connecting s = true ->
  step Alarm s = s.
Proof.
  intros H. cbn [step]. unfold onAlarm.
  destruct (autoReconnectEnabled (vars s)); [|reflexivity].
  destruct (ws_not_open s); [|reflexivity]. cbn [andb].
  apply connect_noop_when_busy. destruct H as [H|H]; [discriminate|exact H].
Qed.

Lemma alarm_respects_guard_witness : step Alarm connected = connected.
Proof.
  exact (alarm_respects_guard connected (or_intror (or_intror eq_refl))).
Defined.

(** X23: a settings change handled while the phase is 'disconnected', the
    settings ask for a connection and nothing is in flight puts the delay
    back to 1000, clears the episode clock, switches automatic reconnection
    on and starts a [connect]; it does not broadcast settingsChanged. *)
Theorem settings_change_while_disconnected (s : State) (k : nat) :
  tasks s !! k = Some SettingsAwaitShould ->
  shouldBeConnected (sync s) = true ->
  is_str (connectionState (vars s)) "disconnected" = true ->
  isConnecting (vars s) = false -> ws (vars s) = None ->
  let s' := step (Resume k) s in
  reconnectDelay (vars s') = 1000 /\
  reconnectStartTime (vars s') = None /\
  autoReconnectEnabled (vars s') = true /\
  isConnecting (vars s') = true /\
  tasks s' = delete k (tasks s) ++ [ConnectAwaitShould] /\
  sockets s' = sockets s /\ local s' = local s /\
  out s' = out s ++ [ConnectProceeds FromSettings].
Proof.
  intros Ht Hsh Hd Hic Hw s'. subst s'. cbn [step]. unfold resume. rewrite Ht.
  cbn [run_task]. unfold settings_after_should. cbn [sync vars set_tasks].
  rewrite Hsh, Hd. cbn [negb andb].
  destruct s as [[w ic cs cb rd rt rs ar] socks loc sy clk tks o].
  cbn in Hic, Hw. subst. unfold connect, ws_open_or_connecting. cbn. repeat split.
Qed.

Lemma settings_change_while_disconnected_witness :
  let s := step SettingsChangedMessage timed_out in
  let s' := step (Resume 0%nat) s in
  autoReconnectEnabled (vars s') = true /\
  reconnectDelay (vars s') = 1000 /\
  out s' = out s ++ [ConnectProceeds FromSettings].
Proof.
  destruct (settings_change_while_disconnected
              (step SettingsChangedMessage timed_out) 0%nat
              ltac:(vm_compute; reflexivity) ltac:(vm_compute; reflexivity)
              ltac:(vm_compute; reflexivity) ltac:(vm_compute; reflexivity)
              ltac:(vm_compute; reflexivity))
    as (H1 & _ & H3 & _ & _ & _ & _ & H8).
  split; [exact H3|]. split; [exact H1|exact H8].
Defined.

End ManagerExtras.
